(** * eaxy / fit.py: EXSY intensity-ratio fitting

    A shallow embedding of [fit.py]: the exchange model [calc_iratio], the
    rate estimator [calc_rates], the loader [load_data] and the pipeline of
    [main].

    Numbers.  The program computes with NumPy's float64.  Every definition
    below is written once, over an interface of arithmetic operations
    ([Num], [NumExp]), and read at two instances:
    - [float] (IEEE-754 binary64, Rocq's primitive floats), where a division
      by zero yields an infinity or a NaN as it does in NumPy;
    - [R] (the real numbers), the exact arithmetic that float64 rounds,
      used for the analytic properties of the model.
    NumPy's [exp] has no binary64 counterpart in the library, so only [R]
    is an instance of [NumExp].

    Library calls.  [scipy.optimize.curve_fit] is not part of the
    repository: it is a parameter of the development, and every call to it
    is recorded in the trace of events. *)

From Stdlib Require Import String ZArith Bool Arith Lia List.
From Stdlib Require Import Reals Lra.
From Stdlib Require Import Floats.
Import ListNotations.

Set Implicit Arguments.

(* ================================================================= *)
(** ** Arithmetic interface *)

Declare Scope num_scope.
Delimit Scope num_scope with num.

(** The operations of a float64-like number type that [fit.py] uses. *)
Class Num (F : Type) : Type := {
  fadd : F -> F -> F;
  fsub : F -> F -> F;
  fmul : F -> F -> F;
  fdiv : F -> F -> F;
  fopp : F -> F;
  fsqrt : F -> F;            (* np.sqrt on one element *)
  flit : Z -> F              (* an integer literal of the source, as a number *)
}.

(** [np.exp] on one element. *)
Class NumExp (F : Type) : Type := fexp : F -> F.

Infix "+" := fadd : num_scope.
Infix "-" := fsub : num_scope.
Infix "*" := fmul : num_scope.
Infix "/" := fdiv : num_scope.
Notation "- x" := (fopp x) : num_scope.

(** [x ** 2]: NumPy evaluates a float raised to the literal 2 as [x * x]. *)
Definition pow2 {F} `{Num F} (x : F) : F := (x * x)%num.

(** Real numbers. *)
#[export] Instance R_Num : Num R := {
  fadd := Rplus; fsub := Rminus; fmul := Rmult; fdiv := Rdiv;
  fopp := Ropp; fsqrt := R_sqrt.sqrt; flit := IZR
}.

#[export] Instance R_NumExp : NumExp R := exp.

(** An integer literal as a binary64 number (exact below 2^53). *)
Definition float_of_Z (z : Z) : float :=
  match z with
  | Z0 => PrimFloat.zero
  | Zpos _ => PrimFloat.of_uint63 (Uint63.of_Z z)
  | Zneg p => PrimFloat.opp (PrimFloat.of_uint63 (Uint63.of_Z (Zpos p)))
  end.

(** IEEE-754 binary64. *)
#[export] Instance float_Num : Num float := {
  fadd := PrimFloat.add; fsub := PrimFloat.sub; fmul := PrimFloat.mul;
  fdiv := PrimFloat.div; fopp := PrimFloat.opp; fsqrt := PrimFloat.sqrt;
  flit := float_of_Z
}.

(* ================================================================= *)
(** ** Python exceptions and results *)

(** The exceptions that NumPy and SciPy raise in the calls the program
    makes.  [fit.py] defines no exception of its own and has no [raise]. *)
Inductive exn : Set :=
| ValueError      (* shapes that do not broadcast *)
| TypeError       (* curve_fit: fewer data points than parameters *)
| RuntimeError    (* curve_fit: optimal parameters not found *)
| IndexError      (* an index out of range or too many indices *)
| OSError.        (* plt.style.use: not a style sheet; np.loadtxt: unreadable *)

Inductive result (A : Type) : Type :=
| Ok (a : A)
| Raised (e : exn).
Arguments Ok {A} a.
Arguments Raised {A} e.

(* ================================================================= *)
(** ** NumPy values: a scalar or a one-dimensional array *)

Inductive npval (F : Type) : Type :=
| Scalar (x : F)
| Array (xs : list F).
Arguments Scalar {F} x.
Arguments Array {F} xs.

(** [shape] of a value: [None] for a scalar, the length for an array. *)
Definition np_shape {F} (v : npval F) : option nat :=
  match v with Scalar _ => None | Array xs => Some (length xs) end.

(** A unary ufunc, or a binary one with a Python scalar on one side:
    applied to every element. *)
Definition np_map {F} (f : F -> F) (v : npval F) : npval F :=
  match v with
  | Scalar x => Scalar (f x)
  | Array xs => Array (map f xs)
  end.

Fixpoint zip_with {F} (f : F -> F -> F) (xs ys : list F) : list F :=
  match xs, ys with
  | x :: xs', y :: ys' => f x y :: zip_with f xs' ys'
  | _, _ => []
  end.

(** A binary ufunc on two values, with NumPy's broadcasting: equal lengths
    pair up, a length-1 array is stretched, anything else is a
    [ValueError] (operands could not be broadcast together). *)
Definition np_binop {F} (f : F -> F -> F) (v w : npval F) : result (npval F) :=
  match v, w with
  | Scalar x, Scalar y => Ok (Scalar (f x y))
  | Scalar x, Array ys => Ok (Array (map (f x) ys))
  | Array xs, Scalar y => Ok (Array (map (fun x => f x y) xs))
  | Array xs, Array ys =>
      if Nat.eqb (length xs) (length ys) then Ok (Array (zip_with f xs ys))
      else match xs, ys with
           | [x], _ => Ok (Array (map (f x) ys))
           | _, [y] => Ok (Array (map (fun x => f x y) xs))
           | _, _ => Raised ValueError
           end
  end.

(* ================================================================= *)
(** ** The exchange model, [calc_iratio] (fit.py lines 12-27) *)

Section ExchangeModel.
Context {F : Type} `{Num F} `{NumExp F}.
Local Open Scope num_scope.

(** [((1 - np.exp(-(k_12 + k_21) * t_m)) * k_12) /
     (k_21 + k_12 * np.exp(-(k_12 + k_21) * t_m))]
    with [t_m] a scalar or an array and [k_12], [k_21] scalars. *)
Definition calc_iratio (t_m : npval F) (k_12 k_21 : F) : result (npval F) :=
  np_binop fdiv
    (np_map (fun x => x * k_12)
       (np_map (fun x => flit 1 - x)
          (np_map fexp
             (np_map (fun x => - (k_12 + k_21) * x) t_m))))
    (np_map (fun x => k_21 + x)
       (np_map (fun x => k_12 * x)
          (np_map fexp
             (np_map (fun x => - (k_12 + k_21) * x) t_m)))).

(** The closed form of the specification, for one mixing time:
    [ratio(t_m, k12, k21) =
       ((1 - exp(-(k12+k21) t_m)) k12) / (k21 + k12 exp(-(k12+k21) t_m))]. *)
Definition exchange_ratio (t_m k12 k21 : F) : F :=
  ((flit 1 - fexp (- (k12 + k21) * t_m)) * k12)
  / (k21 + k12 * fexp (- (k12 + k21) * t_m)).

End ExchangeModel.

(* ================================================================= *)
(** ** Programs: a result together with the events emitted *)

(** The function object handed to [curve_fit]. *)
Inductive callable : Set := Calc_iratio.

(** What a run does besides returning: the call to the external solver,
    the lines printed, and the hand-over to the plotting routine.
    [Print label v err suffix] stands for
    [print(f"{label} = {v:.3f} ± {err:.3f}{suffix}")]; the numbers are kept
    as numbers, their rendering to three decimals is not interpreted. *)
Inductive event (F : Type) : Type :=
| CallCurveFit (f : callable) (xdata ydata : list F)
| Print (label : string) (v err : F) (suffix : string)
| PlotFit (times ratios yerr fit_params : list F) (output_prefix : string).
Arguments CallCurveFit {F} f xdata ydata.
Arguments Print {F} label v err suffix.
Arguments PlotFit {F} times ratios yerr fit_params output_prefix.

(** A program yields a value or a raised exception, and the events it
    emitted up to that point, oldest first. *)
Definition M (F A : Type) : Type := (result A * list (event F))%type.

Definition ret {F A} (a : A) : M F A := (Ok a, []).

Definition lift {F A} (r : result A) : M F A := (r, []).

Definition emit {F} (ev : event F) : M F unit := (Ok tt, [ev]).

Definition bind {F A B} (m : M F A) (k : A -> M F B) : M F B :=
  match m with
  | (Ok a, tr) => let (r, tr') := k a in (r, tr ++ tr')
  | (Raised e, tr) => (Raised e, tr)
  end.

Declare Scope prog_scope.
Delimit Scope prog_scope with prog.
Notation "x <- m ;; k" := (bind m (fun x => k))
  (at level 61, m at next level, right associativity) : prog_scope.
Notation "' pat <- m ;; k" :=
  (bind m (fun x => match x with pat => k end))
  (at level 61, pat pattern, m at next level, right associativity) : prog_scope.

(** Sequencing of results without events. *)
Definition rbind {A B} (r : result A) (k : A -> result B) : result B :=
  match r with Ok a => k a | Raised e => Raised e end.

(** [xs[i]] for a non-negative literal index: out of range is an
    [IndexError]. *)
Definition getitem {F} (xs : list F) (i : nat) : result F :=
  match nth_error xs i with
  | Some x => Ok x
  | None => Raised IndexError
  end.

(** [np.diag] of a two-dimensional array given by its rows: the entries
    [m[i][i]], as long as both indices are in range. *)
Fixpoint diag_from {F} (i : nat) (rows : list (list F)) : list F :=
  match rows with
  | [] => []
  | r :: rows' =>
      match nth_error r i with
      | Some x => x :: diag_from (S i) rows'
      | None => []
      end
  end.

Definition np_diag {F} (m : list (list F)) : list F := diag_from 0 m.

(* ================================================================= *)
(** ** The rate estimator, [calc_rates] (fit.py lines 29-72) *)

(** What [calc_rates] returns: [(param, p_sigma, Kex, K_error)]. *)
Definition fit_tuple (F : Type) : Type := (list F * list F * F * F)%type.

(** What [curve_fit] returns: [(popt, pcov)], or the exception it raises. *)
Definition solver (F : Type) : Type :=
  callable -> list F -> list F -> result (list F * list (list F)).

Section RateEstimator.
Context {F : Type} `{Num F}.
Variable curve_fit : solver F.
Local Open Scope num_scope.
Local Open Scope prog_scope.

(** The call [scipy.optimize.curve_fit(f, xdata, ydata)]: recorded, then
    answered by the solver. *)
Definition call_curve_fit (f : callable) (xdata ydata : list F)
  : M F (list F * list (list F)) :=
  (curve_fit f xdata ydata, [CallCurveFit f xdata ydata]).

Definition calc_rates (times ratios : list F) : M F (fit_tuple F) :=
  ' (param, param_cov) <- call_curve_fit Calc_iratio times ratios ;;
  let p_sigma := map fsqrt (np_diag param_cov) in
  param_0 <- lift (getitem param 0) ;;
  let k12 := param_0 * flit 1000 in
  param_1 <- lift (getitem param 1) ;;
  let k21 := param_1 * flit 1000 in
  p_sigma_0 <- lift (getitem p_sigma 0) ;;
  let k12_err := p_sigma_0 * flit 1000 in
  p_sigma_1 <- lift (getitem p_sigma 1) ;;
  let k21_err := p_sigma_1 * flit 1000 in
  let Kex := param_0 / param_1 in
  let K_error :=
    Kex * fsqrt (pow2 (p_sigma_0 / param_0) + pow2 (p_sigma_1 / param_1)) in
  _ <- emit (Print "k_12" k12 k12_err " ms⁻¹") ;;
  _ <- emit (Print "k_21" k21 k21_err " ms⁻¹") ;;
  _ <- emit (Print "K_ex" Kex K_error EmptyString) ;;
  ret (param, p_sigma, Kex, K_error).

End RateEstimator.

(* ================================================================= *)
(** ** Loading, plotting and [main] (fit.py lines 74-139) *)

(** What [np.loadtxt] hands back: a two-dimensional array with its number of
    columns and its rows (each of that many entries), or (for a file of a
    single row, a single column or a single number, which [loadtxt]
    squeezes) an array of fewer dimensions. *)
Inductive ndarray (F : Type) : Type :=
| Vec (xs : list F)
| Mat (ncols : nat) (rows : list (list F)).
Arguments Vec {F} xs.
Arguments Mat {F} ncols rows.

Section Pipeline.
Context {F : Type} `{Num F}.
Variable curve_fit : solver F.
Variable splitext : string -> string.   (* os.path.splitext(p)[0] *)
Local Open Scope prog_scope.

(** [data[:, j]]: two indices on an array of fewer dimensions, or a column
    that does not exist, is an [IndexError]. *)
Definition column (data : ndarray F) (j : nat) : result (list F) :=
  match data with
  | Vec _ => Raised IndexError
  | Mat ncols rows =>
      if j <? ncols then Ok (map (fun r => nth j r (flit 0)) rows)
      else Raised IndexError
  end.

(** [data.shape[1]]. *)
Definition shape_1 (data : ndarray F) : result nat :=
  match data with
  | Vec _ => Raised IndexError
  | Mat ncols _ => Ok ncols
  end.

(** [np.zeros_like(a)]. *)
Definition zeros_like (a : list F) : list F := map (fun _ => flit 0) a.

(** [load_data], from the array that [np.loadtxt(input_file)] returned. *)
Definition load_data (data : ndarray F)
  : result (list F * list F * list F) :=
  rbind (column data 0) (fun times =>
  rbind (column data 1) (fun ratios =>
  rbind (shape_1 data) (fun ncols =>
  rbind (if 2 <? ncols then column data 2 else Ok (zeros_like ratios))
        (fun errors =>
  Ok (times, ratios, errors))))).

(** [plot_fit] draws and saves a figure: the call is recorded with its
    arguments and not interpreted further.  What Matplotlib does inside the
    call, the exceptions it may raise there included, is outside this
    development: [main] below describes a run up to and including the
    hand-over to [plot_fit]. *)
Definition plot_fit (times ratios yerr fit_params : list F)
           (output_prefix : string) : M F unit :=
  emit (PlotFit times ratios yerr fit_params output_prefix).

(** [main] from line 136 on, with [data] the array read from the input
    file.  Python's [main] returns nothing; the four values bound at line
    137 are returned here so that they can be spoken about. *)
Definition main (data : ndarray F) (output : string) : M F (fit_tuple F) :=
  ' (times, ratios, errors) <- lift (load_data data) ;;
  ' (fit_params, fit_errors, Kex, Kex_err) <- calc_rates curve_fit times ratios ;;
  let output_prefix := splitext output in
  _ <- plot_fit times ratios errors fit_params output_prefix ;;
  ret (fit_params, fit_errors, Kex, Kex_err).

End Pipeline.

(* ================================================================= *)
(** ** What the specification asks of a run *)

(** A run that ends in an exception. *)
Definition fails {F A} (m : M F A) : Prop := exists e, fst m = Raised e.

(** A run that never reached the solver. *)
Definition solver_not_invoked {F A} (m : M F A) : Prop :=
  forall f xdata ydata, ~ In (CallCurveFit f xdata ydata) (snd m).

(** "Rejected before invoking the least-squares solver." *)
Definition rejected_before_solver {F A} (m : M F A) : Prop :=
  fails m /\ solver_not_invoked m.

(** The events of a run other than the hand-over to the plotting routine. *)
Definition is_plot {F} (ev : event F) : bool :=
  match ev with PlotFit _ _ _ _ _ => true | _ => false end.

Definition fit_events {F} (tr : list (event F)) : list (event F) :=
  filter (fun ev => negb (is_plot ev)) tr.

(** The events of a run that gets through [calc_rates] with fitted values
    [p0], [p1] and standard errors [s0], [s1]: the call of the solver and
    the three printed lines. *)
Definition report {F} `{Num F} (times ratios : list F) (p0 p1 s0 s1 : F)
  : list (event F) :=
  [ CallCurveFit Calc_iratio times ratios;
    Print "k_12" (p0 * flit 1000)%num (s0 * flit 1000)%num " ms⁻¹";
    Print "k_21" (p1 * flit 1000)%num (s1 * flit 1000)%num " ms⁻¹";
    Print "K_ex" (p0 / p1)%num
      (p0 / p1 * fsqrt (pow2 (s0 / p0) + pow2 (s1 / p1)))%num EmptyString ].

(** The reporting conversion of the specification: each entry times 1000. *)
Definition times_1000 {F} `{Num F} (xs : list F) : list F :=
  map (fun x => (x * flit 1000)%num) xs.

(** "The FitResult carries the rate parameters and their standard errors
    post-conversion": what is returned is 1000 times what the solver
    fitted. *)
Definition returns_converted {F} `{Num F} (curve_fit : solver F)
           (times ratios : list F) : Prop :=
  forall popt pcov,
    curve_fit Calc_iratio times ratios = Ok (popt, pcov) ->
    exists Kex K_error tr,
      calc_rates curve_fit times ratios
      = (Ok (times_1000 popt, times_1000 (map fsqrt (np_diag pcov)),
             Kex, K_error), tr).

(** A binary64 number that is an infinity or a NaN. *)
Definition nonfinite (x : float) : Prop := PrimFloat.is_finite x = false.

(** The same, on the number's IEEE-754 description. *)
Definition SF_nonfinite (s : spec_float) : bool :=
  match s with
  | S754_nan | S754_infinity _ => true
  | S754_zero _ | S754_finite _ _ _ => false
  end.

(** A binary64 number that is a zero of either sign. *)
Definition float_zero (x : float) : Prop := PrimFloat.eqb x 0%float = true.

(** The sign bit of a binary64 number; a NaN has none. *)
Definition SF_sign (s : spec_float) : option bool :=
  match s with
  | S754_nan => None
  | S754_zero b | S754_infinity b | S754_finite b _ _ => Some b
  end.

(** A NaN, or a number with sign bit [b]. *)
Definition SF_nan_or_sign (b : bool) (s : spec_float) : Prop :=
  SF_sign s = None \/ SF_sign s = Some b.

(* ================================================================= *)
(** ** Solvers used in the examples *)

(** A solver that answers every call with the same [(popt, pcov)]. *)
Definition solver_returning {F} (popt : list F) (pcov : list (list F))
  : solver F :=
  fun _ _ _ => Ok (popt, pcov).

(** A solver that, like [curve_fit], lets NumPy subtract [ydata] from the
    model evaluated on [xdata] and so raises [ValueError] when the two
    lengths do not broadcast, raises [TypeError] when there are fewer
    points than the two parameters, and otherwise answers [(popt, pcov)]. *)
Definition solver_checking_shapes {F} (popt : list F) (pcov : list (list F))
  : solver F :=
  fun _ xdata ydata =>
    if negb (Nat.eqb (length xdata) (length ydata)
             || Nat.eqb (length xdata) 1 || Nat.eqb (length ydata) 1)
    then Raised ValueError
    else if Nat.max (length xdata) (length ydata) <? 2 then Raised TypeError
    else Ok (popt, pcov).

Local Open Scope float_scope.

(** Three mixing times and three ratios. *)
Definition times3 : list float := [10; 50; 100].
Definition ratios3 : list float := [0.125; 0.25; 0.5].

(** A fit with k12 = 1, k21 = 2 and variances 9 and 64. *)
Definition popt_1_2 : list float := [1; 2].
Definition pcov_9_64 : list (list float) := [[9; 0]; [0; 64]].

(** A fit whose k21 is exactly zero. *)
Definition popt_1_0 : list float := [1; 0].
Definition pcov_quarter : list (list float) := [[0.25; 0]; [0; 0.25]].

(** The covariance [curve_fit] returns when it cannot estimate one: every
    entry infinite. *)
Definition pcov_inf : list (list float) :=
  [[infinity; infinity]; [infinity; infinity]].

(** A file of three rows, without and with a third column. *)
Definition data_2col : ndarray float :=
  Mat 2 [[10; 0.125]; [50; 0.25]; [100; 0.5]].
Definition data_3col : ndarray float :=
  Mat 3 [[10; 0.125; 0.5]; [50; 0.25; 0.25]; [100; 0.5; 0.125]].

Local Close Scope float_scope.

(* ================================================================= *)
(** ** The command line of [main] (fit.py lines 120-139) *)

(** The parsed arguments: [input], [-o/--output] (argparse fills in
    "exsy") and [--style] ([None] when the option is absent). *)
Record cli_args : Type := {
  arg_input : string;
  arg_output : string;
  arg_style : option string
}.

(** What a run from the command line does: what the pipeline does, and
    before it the style sheet applied, the message for a missing input file
    and the reading of the input file. *)
Inductive cli_event (F : Type) : Type :=
| UseStyle (path : string)            (* plt.style.use(args.style) *)
| PrintFileNotFound (path : string)   (* print(f"Error: File '{path}' not found.") *)
| LoadTxt (path : string)             (* np.loadtxt(input_file) *)
| Pipeline (ev : event F).
Arguments UseStyle {F} path.
Arguments PrintFileNotFound {F} path.
Arguments LoadTxt {F} path.
Arguments Pipeline {F} ev.

(** Python's truth value of [args.style]: [None] and the empty string are
    false. *)
Definition style_given (style : option string) : option string :=
  match style with
  | Some EmptyString => None
  | Some s => Some s
  | None => None
  end.

Section CommandLine.
Context {F : Type} `{Num F}.
Variable curve_fit : solver F.
Variable splitext : string -> string.
Variable path_exists : string -> bool.                (* os.path.exists *)
Variable style_use : string -> result unit.           (* plt.style.use *)
Variable loadtxt : string -> result (ndarray F).      (* np.loadtxt *)

(** Lines 128-130: when the option is given and the file exists, the style
    sheet is applied, which Matplotlib may refuse with an exception;
    otherwise nothing happens. *)
Definition apply_style (style : option string)
  : result unit * list (cli_event F) :=
  match style_given style with
  | Some s => if path_exists s then (style_use s, [UseStyle s]) else (Ok tt, [])
  | None => (Ok tt, [])
  end.

(** Lines 132-139, once the style is dealt with.  The value is [None] when
    [main] returns at line 134, and the values bound at line 137
    otherwise. *)
Definition main_after_style (args : cli_args)
  : result (option (fit_tuple F)) * list (cli_event F) :=
  if negb (path_exists (arg_input args))
  then (Ok None, [PrintFileNotFound (arg_input args)])
  else
    match loadtxt (arg_input args) with
    | Raised e => (Raised e, [LoadTxt (arg_input args)])
    | Ok data =>
        let (r, tr) := main curve_fit splitext data (arg_output args) in
        (match r with Ok fit => Ok (Some fit) | Raised e => Raised e end,
         LoadTxt (arg_input args) :: map Pipeline tr)
    end.

(** [main] from the parsed arguments on. *)
Definition main_cli (args : cli_args)
  : result (option (fit_tuple F)) * list (cli_event F) :=
  match apply_style (arg_style args) with
  | (Raised e, styled) => (Raised e, styled)
  | (Ok _, styled) =>
      let (r, tr) := main_after_style args in (r, styled ++ tr)
  end.

End CommandLine.

(** The pipeline events of a command-line run. *)
Definition pipeline_events {F} (tr : list (cli_event F)) : list (event F) :=
  flat_map (fun ev => match ev with Pipeline e => [e] | _ => [] end) tr.

(* ================================================================= *)
(** * Properties *)

Unset Implicit Arguments.

(** ** The exchange model is the closed form, element by element *)

Lemma zip_with_map {F} (f : F -> F -> F) (g h : F -> F) (xs : list F) :
  zip_with f (map g xs) (map h xs) = map (fun x => f (g x) (h x)) xs.
Proof.
  induction xs as [|x xs IH]; cbn; [reflexivity|].
  now rewrite IH.
Qed.

Section ExchangeModelFacts.
Context {F : Type} `{Num F} `{NumExp F}.

Lemma calc_iratio_Scalar (t k12 k21 : F) :
  calc_iratio (Scalar t) k12 k21 = Ok (Scalar (exchange_ratio t k12 k21)).
Proof. reflexivity. Qed.

Lemma calc_iratio_Array (ts : list F) (k12 k21 : F) :
  calc_iratio (Array ts) k12 k21
  = Ok (Array (map (fun t => exchange_ratio t k12 k21) ts)).
Proof.
  unfold calc_iratio; cbn.
  rewrite !length_map, Nat.eqb_refl.
  rewrite !map_map, zip_with_map.
  reflexivity.
Qed.

End ExchangeModelFacts.

(** C2. For a single mixing time the model returns the closed form of the
    specification; for a sequence of mixing times it returns the sequence of
    closed forms, one per element and in order; in both cases no exception
    is raised and the result has the shape of the input. *)
Theorem calc_iratio_closed_form_elementwise :
  forall (F : Type) (num : Num F) (ex : NumExp F) (k12 k21 : F),
    (forall t, calc_iratio (Scalar t) k12 k21
               = Ok (Scalar (exchange_ratio t k12 k21)))
    /\ (forall ts, calc_iratio (Array ts) k12 k21
                   = Ok (Array (map (fun t => exchange_ratio t k12 k21) ts)))
    /\ (forall t_m, exists v, calc_iratio t_m k12 k21 = Ok v
                              /\ np_shape v = np_shape t_m).
Proof.
  intros F num ex k12 k21.
  split; [|split].
  - intro t. apply calc_iratio_Scalar.
  - intro ts. apply calc_iratio_Array.
  - intros [t|ts].
    + eexists. split; [apply calc_iratio_Scalar | reflexivity].
    + eexists. split; [apply calc_iratio_Array|].
      cbn. now rewrite length_map.
Qed.

(* ================================================================= *)
(** ** The exchange model over the real numbers *)

Section RealModel.
Local Open Scope R_scope.







Variables k12 k21 : R.
Hypothesis k12_pos : 0 < k12.
Hypothesis k21_pos : 0 < k21.





End RealModel.




(* ================================================================= *)
(** ** Runs of the rate estimator *)

Section RateEstimatorFacts.
Context {F : Type} `{Num F}.
Variable curve_fit : solver F.
Variables times ratios : list F.
Local Open Scope num_scope.

(** An exception of the solver ends the run at once. *)
Lemma calc_rates_raised (e : exn) :
  curve_fit Calc_iratio times ratios = Raised e ->
  calc_rates curve_fit times ratios
  = (Raised e, [CallCurveFit Calc_iratio times ratios]).
Proof.
  intro E. unfold calc_rates, call_curve_fit, bind. now rewrite E.
Qed.

(** A solver answer whose first two parameters and first two diagonal
    entries exist gets through. *)
Lemma calc_rates_returns (param : list F) (cov : list (list F))
      (p0 p1 s0 s1 : F) :
  curve_fit Calc_iratio times ratios = Ok (param, cov) ->
  getitem param 0 = Ok p0 ->
  getitem param 1 = Ok p1 ->
  getitem (map fsqrt (np_diag cov)) 0 = Ok s0 ->
  getitem (map fsqrt (np_diag cov)) 1 = Ok s1 ->
  calc_rates curve_fit times ratios
  = (Ok (param, map fsqrt (np_diag cov), p0 / p1,
         p0 / p1 * fsqrt (pow2 (s0 / p0) + pow2 (s1 / p1))),
     report times ratios p0 p1 s0 s1).
Proof.
  intros E E0 E1 E2 E3.
  unfold calc_rates, call_curve_fit, bind, lift.
  rewrite E. cbn. rewrite E0. cbn. rewrite E1. cbn.
  rewrite E2. cbn. rewrite E3. cbn. reflexivity.
Qed.

(** Every run that returns came about that way. *)
Lemma calc_rates_inv (param p_sigma : list F) (Kex K_error : F)
      (tr : list (event F)) :
  calc_rates curve_fit times ratios = (Ok (param, p_sigma, Kex, K_error), tr) ->
  exists cov p0 p1 s0 s1,
    curve_fit Calc_iratio times ratios = Ok (param, cov)
    /\ p_sigma = map fsqrt (np_diag cov)
    /\ getitem param 0 = Ok p0 /\ getitem param 1 = Ok p1
    /\ getitem p_sigma 0 = Ok s0 /\ getitem p_sigma 1 = Ok s1
    /\ Kex = p0 / p1
    /\ K_error = Kex * fsqrt (pow2 (s0 / p0) + pow2 (s1 / p1))
    /\ tr = report times ratios p0 p1 s0 s1.
Proof.
  intro E.
  destruct (curve_fit Calc_iratio times ratios) as [[popt cov]|e] eqn:Ecf;
    [|rewrite (calc_rates_raised e Ecf) in E; discriminate].
  destruct (getitem popt 0) as [p0|e0] eqn:E0;
    [|unfold calc_rates, call_curve_fit, bind, lift in E;
      rewrite Ecf in E; cbn in E; rewrite E0 in E; discriminate].
  destruct (getitem popt 1) as [p1|e1] eqn:E1;
    [|unfold calc_rates, call_curve_fit, bind, lift in E;
      rewrite Ecf in E; cbn in E; rewrite E0 in E; cbn in E;
      rewrite E1 in E; discriminate].
  destruct (getitem (map fsqrt (np_diag cov)) 0) as [s0|e2] eqn:E2;
    [|unfold calc_rates, call_curve_fit, bind, lift in E;
      rewrite Ecf in E; cbn in E; rewrite E0 in E; cbn in E;
      rewrite E1 in E; cbn in E; rewrite E2 in E; discriminate].
  destruct (getitem (map fsqrt (np_diag cov)) 1) as [s1|e3] eqn:E3;
    [|unfold calc_rates, call_curve_fit, bind, lift in E;
      rewrite Ecf in E; cbn in E; rewrite E0 in E; cbn in E;
      rewrite E1 in E; cbn in E; rewrite E2 in E; cbn in E;
      rewrite E3 in E; discriminate].
  rewrite (calc_rates_returns popt cov p0 p1 s0 s1 Ecf E0 E1 E2 E3) in E.
  injection E as <- <- <- <- <-.
  exists cov, p0, p1, s0, s1. repeat split; assumption || reflexivity.
Qed.

(** Whatever the input, the first thing a run does is call the solver, with
    the two sequences as they were given. *)
Lemma calc_rates_calls_solver_first :
  exists tr, snd (calc_rates curve_fit times ratios)
             = CallCurveFit Calc_iratio times ratios :: tr.
Proof.
  unfold calc_rates, call_curve_fit.
  match goal with |- context [bind _ ?k] => generalize k end.
  intro k. unfold bind.
  destruct (curve_fit Calc_iratio times ratios) as [a|e]; cbn.
  - destruct (k a) as [r tr']. now exists tr'.
  - now exists [].
Qed.

End RateEstimatorFacts.

(** C1. For every fit that returns, the returned [Kex] is the quotient of
    the two fitted parameters as the solver gave them (before any multiple
    of 1000 is taken), and the returned [K_error] is
    [Kex * sqrt ((s12/k12)^2 + (s21/k21)^2)] with [s12], [s21] the square
    roots of the diagonal of the solver's covariance. *)
Theorem calc_rates_Kex_and_error :
  forall (F : Type) (num : Num F) (curve_fit : solver F)
         (times ratios param p_sigma : list F) (Kex K_error : F)
         (tr : list (event F)),
    calc_rates curve_fit times ratios
    = (Ok (param, p_sigma, Kex, K_error), tr) ->
    exists cov k12 k21 s12 s21,
      curve_fit Calc_iratio times ratios = Ok (param, cov)
      /\ p_sigma = map fsqrt (np_diag cov)
      /\ getitem param 0 = Ok k12 /\ getitem param 1 = Ok k21
      /\ getitem p_sigma 0 = Ok s12 /\ getitem p_sigma 1 = Ok s21
      /\ Kex = (k12 / k21)%num
      /\ K_error
         = (Kex * fsqrt (pow2 (s12 / k12) + pow2 (s21 / k21)))%num.
Proof.
  intros F num curve_fit times ratios param p_sigma Kex K_error tr E.
  destruct (calc_rates_inv curve_fit times ratios _ _ _ _ _ E)
    as (cov & p0 & p1 & s0 & s1 & Ecf & Es & E0 & E1 & E2 & E3 & EK & EKe & _).
  exists cov, p0, p1, s0, s1. repeat split; assumption.
Qed.

Lemma calc_rates_Kex_and_error_witness :
  calc_rates (solver_returning popt_1_2 pcov_9_64) times3 ratios3
  = (Ok ([1; 2], [3; 8], 0.5, 2.5)%float,
     report times3 ratios3 1%float 2%float 3%float 8%float)
  /\ exists cov k12 k21 s12 s21,
      solver_returning popt_1_2 pcov_9_64 Calc_iratio times3 ratios3
      = Ok ([1; 2]%float, cov)
      /\ [3; 8]%float = map fsqrt (np_diag cov)
      /\ getitem [1; 2]%float 0 = Ok k12
      /\ getitem [1; 2]%float 1 = Ok k21
      /\ getitem [3; 8]%float 0 = Ok s12
      /\ getitem [3; 8]%float 1 = Ok s21
      /\ 0.5%float = (k12 / k21)%num
      /\ 2.5%float
         = (0.5%float * fsqrt (pow2 (s12 / k12) + pow2 (s21 / k21)))%num.
Proof.
  split; [vm_compute; reflexivity|].
  apply (calc_rates_Kex_and_error float float_Num
           (solver_returning popt_1_2 pcov_9_64) times3 ratios3
           [1; 2]%float [3; 8]%float 0.5%float 2.5%float
           (report times3 ratios3 1%float 2%float 3%float 8%float)).
  vm_compute; reflexivity.
Defined.

(** C3, as the code has it. Whatever the lengths of [times] and [ratios],
    [calc_rates] checks nothing itself: its first action is the call of the
    solver on the two sequences as given.  If the solver raises, that
    exception is the outcome of the call and nothing else happened;
    otherwise the run goes on after the solver's call. *)
Theorem calc_rates_leaves_shapes_to_solver :
  forall (F : Type) (num : Num F) (curve_fit : solver F)
         (times ratios : list F),
    match curve_fit Calc_iratio times ratios with
    | Raised e =>
        calc_rates curve_fit times ratios
        = (Raised e, [CallCurveFit Calc_iratio times ratios])
    | Ok _ =>
        exists r tr,
          calc_rates curve_fit times ratios
          = (r, CallCurveFit Calc_iratio times ratios :: tr)
    end.
Proof.
  intros F num curve_fit times ratios.
  destruct (curve_fit Calc_iratio times ratios) as [a|e] eqn:E.
  - destruct (calc_rates_calls_solver_first curve_fit times ratios)
      as [tr Htr].
    destruct (calc_rates curve_fit times ratios) as [r tr0].
    cbn in Htr. subst tr0. now exists r, tr.
  - now apply calc_rates_raised.
Qed.

(** C3 as stated fails: with three times and two ratios, and with a single
    data point, the solver is invoked; the exception that ends the call is
    the one the solver raised. *)
Lemma calc_rates_invokes_solver_on_bad_shapes :
  (calc_rates (solver_checking_shapes popt_1_2 pcov_9_64)
     [10; 50; 100]%float [0.125; 0.25]%float
   = (Raised ValueError,
      [CallCurveFit Calc_iratio [10; 50; 100]%float [0.125; 0.25]%float])
   /\ ~ rejected_before_solver
        (calc_rates (solver_checking_shapes popt_1_2 pcov_9_64)
           [10; 50; 100]%float [0.125; 0.25]%float))
  /\ (calc_rates (solver_checking_shapes popt_1_2 pcov_9_64)
        [10]%float [0.125]%float
      = (Raised TypeError,
         [CallCurveFit Calc_iratio [10]%float [0.125]%float])
      /\ ~ rejected_before_solver
           (calc_rates (solver_checking_shapes popt_1_2 pcov_9_64)
              [10]%float [0.125]%float)).
Proof.
  split; (split; [reflexivity|]); intros [_ Hn];
    eapply Hn; left; reflexivity.
Qed.

(** C5, as the code has it. For every fit that returns, the tuple handed
    to the caller holds the fitted parameters and the standard errors as
    the solver gave them, with [Kex] and [K_error]; the values multiplied
    by 1000 are only printed. *)
Theorem calc_rates_returns_raw_prints_converted :
  forall (F : Type) (num : Num F) (curve_fit : solver F)
         (times ratios param p_sigma : list F) (Kex K_error : F)
         (tr : list (event F)),
    calc_rates curve_fit times ratios
    = (Ok (param, p_sigma, Kex, K_error), tr) ->
    exists cov k12 k21 s12 s21,
      curve_fit Calc_iratio times ratios = Ok (param, cov)
      /\ p_sigma = map fsqrt (np_diag cov)
      /\ getitem param 0 = Ok k12 /\ getitem param 1 = Ok k21
      /\ getitem p_sigma 0 = Ok s12 /\ getitem p_sigma 1 = Ok s21
      /\ tr = [ CallCurveFit Calc_iratio times ratios;
                Print "k_12" (k12 * flit 1000)%num (s12 * flit 1000)%num
                      " ms⁻¹";
                Print "k_21" (k21 * flit 1000)%num (s21 * flit 1000)%num
                      " ms⁻¹";
                Print "K_ex" Kex K_error EmptyString ].
Proof.
  intros F num curve_fit times ratios param p_sigma Kex K_error tr E.
  destruct (calc_rates_inv curve_fit times ratios _ _ _ _ _ E)
    as (cov & p0 & p1 & s0 & s1 & Ecf & Es & E0 & E1 & E2 & E3 & EK & EKe & Et).
  exists cov, p0, p1, s0, s1.
  repeat (split; [assumption|]).
  rewrite Et, EKe, EK. reflexivity.
Qed.

Lemma calc_rates_returns_raw_prints_converted_witness :
  calc_rates (solver_returning popt_1_2 pcov_9_64) times3 ratios3
  = (Ok ([1; 2], [3; 8], 0.5, 2.5)%float,
     [ CallCurveFit Calc_iratio times3 ratios3;
       Print "k_12" 1000%float 3000%float " ms⁻¹";
       Print "k_21" 2000%float 8000%float " ms⁻¹";
       Print "K_ex" 0.5%float 2.5%float EmptyString ])
  /\ exists cov k12 k21 s12 s21,
      solver_returning popt_1_2 pcov_9_64 Calc_iratio times3 ratios3
      = Ok ([1; 2]%float, cov)
      /\ [3; 8]%float = map fsqrt (np_diag cov)
      /\ getitem [1; 2]%float 0 = Ok k12
      /\ getitem [1; 2]%float 1 = Ok k21
      /\ getitem [3; 8]%float 0 = Ok s12
      /\ getitem [3; 8]%float 1 = Ok s21
      /\ [ CallCurveFit Calc_iratio times3 ratios3;
           Print "k_12" 1000%float 3000%float " ms⁻¹";
           Print "k_21" 2000%float 8000%float " ms⁻¹";
           Print "K_ex" 0.5%float 2.5%float EmptyString ]
         = [ CallCurveFit Calc_iratio times3 ratios3;
             Print "k_12" (k12 * flit 1000)%num (s12 * flit 1000)%num
                   " ms⁻¹";
             Print "k_21" (k21 * flit 1000)%num (s21 * flit 1000)%num
                   " ms⁻¹";
             Print "K_ex" 0.5%float 2.5%float EmptyString ].
Proof.
  split; [vm_compute; reflexivity|].
  apply (calc_rates_returns_raw_prints_converted float float_Num
           (solver_returning popt_1_2 pcov_9_64) times3 ratios3
           [1; 2]%float [3; 8]%float 0.5%float 2.5%float).
  vm_compute; reflexivity.
Defined.

(** C5 as stated fails: a fit of k12 = 1, k21 = 2 with standard errors 3
    and 8 is returned as [1; 2] and [3; 8], not as their multiples of
    1000. *)
Lemma calc_rates_does_not_return_converted :
  fst (calc_rates (solver_returning popt_1_2 pcov_9_64) times3 ratios3)
  = Ok ([1; 2], [3; 8], 0.5, 2.5)%float
  /\ ~ returns_converted (solver_returning popt_1_2 pcov_9_64)
       times3 ratios3.
Proof.
  split; [vm_compute; reflexivity|].
  intro Hc.
  destruct (Hc popt_1_2 pcov_9_64 eq_refl) as (Kex & K_error & tr & E).
  apply (f_equal (fun m : M float (fit_tuple float) =>
                    match fst m with
                    | Ok (k12 :: _, _, _, _) => PrimFloat.eqb k12 1
                    | _ => false
                    end)) in E.
  vm_compute in E. discriminate E.
Qed.

(** C6, as the code has it. [calc_rates] fails exactly as the solver does:
    an exception raised by the solver ends the call with that exception, no
    line printed and nothing returned; an answer of two parameters with a
    two-by-two covariance is never refused, whatever the covariance holds:
    the standard errors returned are the square roots of its diagonal. *)
Theorem calc_rates_fails_as_solver_does :
  forall (F : Type) (num : Num F) (curve_fit : solver F)
         (times ratios : list F),
    match curve_fit Calc_iratio times ratios with
    | Raised e =>
        calc_rates curve_fit times ratios
        = (Raised e, [CallCurveFit Calc_iratio times ratios])
    | Ok ([k12; k21], [[c00; c01]; [c10; c11]]) =>
        calc_rates curve_fit times ratios
        = (Ok ([k12; k21], [fsqrt c00; fsqrt c11], (k12 / k21)%num,
               (k12 / k21
                * fsqrt (pow2 (fsqrt c00 / k12)
                         + pow2 (fsqrt c11 / k21)))%num),
           report times ratios k12 k21 (fsqrt c00) (fsqrt c11))
    | Ok _ => True
    end.
Proof.
  intros F num curve_fit times ratios.
  destruct (curve_fit Calc_iratio times ratios) as [[popt cov]|e] eqn:E;
    [|now apply calc_rates_raised].
  destruct popt as [|k12 [|k21 [|]]]; try exact I.
  destruct cov as [|[|c00 [|c01 [|]]] [|[|c10 [|c11 [|]]] [|]]]; try exact I.
  now apply (calc_rates_returns curve_fit times ratios
               [k12; k21] [[c00; c01]; [c10; c11]]).
Qed.

(** C6 as stated fails: when the solver answers with the all-infinite
    covariance that stands for "could not be estimated", [calc_rates] does
    not fail; it returns infinite error bars. *)
Lemma calc_rates_returns_infinite_error_bars :
  calc_rates (solver_returning popt_1_2 pcov_inf) times3 ratios3
  = (Ok ([1; 2], [infinity; infinity], 0.5, infinity)%float,
     report times3 ratios3 1%float 2%float infinity infinity)
  /\ ~ fails (calc_rates (solver_returning popt_1_2 pcov_inf)
                times3 ratios3).
Proof.
  split; [vm_compute; reflexivity|].
  intros [e He]. vm_compute in He. discriminate He.
Qed.

(* ================================================================= *)
(** ** Division by a zero rate in binary64 *)

Section FloatFacts.
Local Open Scope float_scope.

Lemma is_finite_SF (x : float) :
  PrimFloat.is_finite x = negb (SF_nonfinite (Prim2SF x)).
Proof.
  unfold is_finite, is_nan, is_infinity.
  rewrite !FloatAxioms.eqb_spec, abs_spec.
  destruct (Prim2SF x) as [s|s| |s m e];
    try (destruct s; reflexivity); try reflexivity.
  unfold SFeqb, SFcompare.
  rewrite Z.compare_refl, Pos.compare_refl. destruct s; reflexivity.
Qed.

Lemma nonfinite_SF (x : float) :
  nonfinite x <-> SF_nonfinite (Prim2SF x) = true.
Proof.
  unfold nonfinite. rewrite is_finite_SF.
  destruct (SF_nonfinite _); cbn; split; congruence.
Qed.

Lemma float_zero_SF (x : float) :
  float_zero x -> exists s, Prim2SF x = S754_zero s.
Proof.
  unfold float_zero. rewrite FloatAxioms.eqb_spec.
  destruct (Prim2SF x) as [s|s| |s m e]; cbn; try discriminate; eauto.
  - destruct s; discriminate.
  - destruct s; discriminate.
Qed.

(** [x / 0] is an infinity or a NaN, whatever [x]. *)
Lemma div_zero_nonfinite (x y : float) :
  float_zero y -> nonfinite (x / y).
Proof.
  intros [s Hy]%float_zero_SF. apply nonfinite_SF.
  rewrite div_spec, Hy.
  destruct (Prim2SF x) as [sx|sx| |sx m e]; reflexivity.
Qed.

(** Infinities and NaNs do not become finite again in a product, a sum or
    a square root. *)
Lemma mul_nonfinite_l (x y : float) : nonfinite x -> nonfinite (x * y).
Proof.
  rewrite !nonfinite_SF, mul_spec.
  destruct (Prim2SF x) as [sx|sx| |sx mx ex]; try discriminate; intros _;
    destruct (Prim2SF y) as [sy|sy| |sy my ey]; reflexivity.
Qed.

Lemma mul_nonfinite_r (x y : float) : nonfinite y -> nonfinite (x * y).
Proof.
  rewrite !nonfinite_SF, mul_spec.
  destruct (Prim2SF y) as [sy|sy| |sy my ey]; try discriminate; intros _;
    destruct (Prim2SF x) as [sx|sx| |sx mx ex]; reflexivity.
Qed.

Lemma add_nonfinite_l (x y : float) : nonfinite x -> nonfinite (x + y).
Proof.
  rewrite !nonfinite_SF, add_spec.
  destruct (Prim2SF x) as [sx|sx| |sx mx ex]; try discriminate; intros _;
    destruct (Prim2SF y) as [sy|sy| |sy my ey]; try reflexivity.
  destruct sx, sy; reflexivity.
Qed.

Lemma add_nonfinite_r (x y : float) : nonfinite y -> nonfinite (x + y).
Proof.
  rewrite !nonfinite_SF, add_spec.
  destruct (Prim2SF y) as [sy|sy| |sy my ey]; try discriminate; intros _;
    destruct (Prim2SF x) as [sx|sx| |sx mx ex]; try reflexivity.
  destruct sx, sy; reflexivity.
Qed.

Lemma sqrt_nonfinite (x : float) : nonfinite x -> nonfinite (sqrt x).
Proof.
  rewrite !nonfinite_SF, sqrt_spec.
  destruct (Prim2SF x) as [sx|sx| |sx mx ex]; try discriminate; intros _;
    try reflexivity.
  destruct sx; reflexivity.
Qed.

End FloatFacts.

(** C4, as the code has it. In binary64, a fit whose k21 (or k12) is a zero
    raises nothing in [calc_rates]: the call returns, [Kex] is the IEEE
    quotient k12 / k21, and the division by the zero rate shows as an
    infinity or a NaN: in [Kex] and [K_error] when k21 is zero, in
    [K_error] when k12 is zero. *)
Theorem calc_rates_zero_rate_returns_nonfinite :
  forall (curve_fit : solver float) (times ratios : list float)
         (k12 k21 c00 c01 c10 c11 : float),
    curve_fit Calc_iratio times ratios
    = Ok ([k12; k21], [[c00; c01]; [c10; c11]]) ->
    exists Kex K_error,
      calc_rates curve_fit times ratios
      = (Ok ([k12; k21], [PrimFloat.sqrt c00; PrimFloat.sqrt c11],
             Kex, K_error),
         report times ratios k12 k21
                (PrimFloat.sqrt c00) (PrimFloat.sqrt c11))
      /\ Kex = PrimFloat.div k12 k21
      /\ (float_zero k21 -> nonfinite Kex /\ nonfinite K_error)
      /\ (float_zero k12 -> nonfinite K_error).
Proof.
  intros curve_fit times ratios k12 k21 c00 c01 c10 c11 E.
  exists (k12 / k21)%num.
  exists (k12 / k21
          * fsqrt (pow2 (fsqrt c00 / k12) + pow2 (fsqrt c11 / k21)))%num.
  split; [|split; [reflexivity|split]].
  - rewrite (calc_rates_returns curve_fit times ratios
               [k12; k21] [[c00; c01]; [c10; c11]]
               k12 k21 (fsqrt c00) (fsqrt c11)
               E eq_refl eq_refl eq_refl eq_refl).
    reflexivity.
  - intro Hz.
    assert (Hk : nonfinite (PrimFloat.div k12 k21))
      by now apply div_zero_nonfinite.
    split; [exact Hk|].
    now apply mul_nonfinite_l.
  - intro Hz. cbn.
    apply mul_nonfinite_r, sqrt_nonfinite, add_nonfinite_l.
    unfold pow2. cbn.
    now apply mul_nonfinite_l, div_zero_nonfinite.
Qed.

Lemma calc_rates_zero_rate_returns_nonfinite_witness :
  solver_returning popt_1_0 pcov_quarter Calc_iratio times3 ratios3
  = Ok ([1; 0]%float, [[0.25; 0]; [0; 0.25]]%float)
  /\ exists Kex K_error,
      calc_rates (solver_returning popt_1_0 pcov_quarter) times3 ratios3
      = (Ok ([1; 0]%float,
             [PrimFloat.sqrt 0.25; PrimFloat.sqrt 0.25], Kex, K_error),
         report times3 ratios3 1%float 0%float
                (PrimFloat.sqrt 0.25) (PrimFloat.sqrt 0.25))
      /\ Kex = PrimFloat.div 1 0
      /\ (float_zero 0 -> nonfinite Kex /\ nonfinite K_error)
      /\ (float_zero 1 -> nonfinite K_error).
Proof.
  split; [reflexivity|].
  apply (calc_rates_zero_rate_returns_nonfinite
           (solver_returning popt_1_0 pcov_quarter) times3 ratios3
           1%float 0%float 0.25%float 0%float 0%float 0.25%float).
  reflexivity.
Defined.

(** C4 as stated fails: a fit whose k21 is exactly 0 raises no error; the
    call returns with [Kex] and [K_error] infinite. *)
Lemma calc_rates_zero_k21_returns_infinity :
  calc_rates (solver_returning popt_1_0 pcov_quarter) times3 ratios3
  = (Ok ([1; 0], [0.5; 0.5], infinity, infinity)%float,
     report times3 ratios3 1%float 0%float 0.5%float 0.5%float)
  /\ ~ fails (calc_rates (solver_returning popt_1_0 pcov_quarter)
                times3 ratios3).
Proof.
  split; [vm_compute; reflexivity|].
  intros [e He]. vm_compute in He. discriminate He.
Qed.

(* ================================================================= *)
(** ** The loader and the pipeline *)

Section PipelineFacts.
Context {F : Type} `{Num F}.
Variable curve_fit : solver F.
Variable splitext : string -> string.

(** A step that only yields a value adds nothing to the run. *)
Lemma bind_lift_Ok {A B} (a : A) (k : A -> M F B) :
  bind (lift (Ok a)) k = k a.
Proof. unfold bind, lift. now destruct (k a). Qed.

Lemma zeros_like_repeat (a : list F) :
  zeros_like a = repeat (flit 0) (length a).
Proof.
  induction a as [|x a IH]; cbn; [reflexivity|].
  f_equal. exact IH.
Qed.

(** A two-column array loads into its two columns and as many zeros. *)
Lemma load_data_Mat_2 (rows : list (list F)) :
  load_data (Mat 2 rows)
  = Ok (map (fun r => nth 0 r (flit 0)) rows,
        map (fun r => nth 1 r (flit 0)) rows,
        zeros_like (map (fun r => nth 1 r (flit 0)) rows)).
Proof. reflexivity. Qed.

(** The events of [calc_rates] hold no plot. *)
Lemma calc_rates_no_plot (times ratios : list F) :
  fit_events (snd (calc_rates curve_fit times ratios))
  = snd (calc_rates curve_fit times ratios).
Proof.
  destruct (calc_rates curve_fit times ratios) as [[[[[param ps] K] Ke]|e] tr]
    eqn:E.
  - apply calc_rates_inv in E.
    destruct E as (cov & p0 & p1 & s0 & s1 & _ & _ & _ & _ & _ & _ & _ & _ & ->).
    reflexivity.
  - destruct (curve_fit Calc_iratio times ratios) as [[popt cov]|e'] eqn:Ecf.
    + revert E. unfold calc_rates, call_curve_fit, bind, lift.
      rewrite Ecf. cbn.
      destruct (getitem popt 0); [cbn|intro E; now inversion E].
      destruct (getitem popt 1); [cbn|intro E; now inversion E].
      destruct (getitem (map fsqrt (np_diag cov)) 0);
        [cbn|intro E; now inversion E].
      destruct (getitem (map fsqrt (np_diag cov)) 1);
        [cbn|intro E; now inversion E].
      discriminate.
    + rewrite (calc_rates_raised curve_fit times ratios e' Ecf) in E.
      now inversion E.
Qed.

(** [main] on loaded data: the run of [calc_rates], then the plot. *)
Lemma main_run (data : ndarray F) (output : string)
      (times ratios errors : list F) :
  load_data data = Ok (times, ratios, errors) ->
  main curve_fit splitext data output
  = match calc_rates curve_fit times ratios with
    | (Ok (fit_params, fit_errors, Kex, Kex_err), tr) =>
        (Ok (fit_params, fit_errors, Kex, Kex_err),
         tr ++ [PlotFit times ratios errors fit_params (splitext output)])
    | (Raised e, tr) => (Raised e, tr)
    end.
Proof.
  intro E. unfold main. rewrite E, bind_lift_Ok.
  generalize (calc_rates curve_fit times ratios).
  intros [[[[[param ps] K] Ke]|e] tr]; reflexivity.
Qed.

Lemma main_fit (data : ndarray F) (output : string)
      (times ratios errors : list F) :
  load_data data = Ok (times, ratios, errors) ->
  fst (main curve_fit splitext data output)
  = fst (calc_rates curve_fit times ratios)
  /\ fit_events (snd (main curve_fit splitext data output))
     = snd (calc_rates curve_fit times ratios).
Proof.
  intro E. rewrite (main_run data output times ratios errors E).
  generalize (calc_rates_no_plot times ratios).
  destruct (calc_rates curve_fit times ratios)
    as [[[[[param ps] K] Ke]|e] tr]; cbn; intro Hn.
  - split; [reflexivity|].
    unfold fit_events in *. rewrite filter_app. cbn.
    rewrite app_nil_r. exact Hn.
  - split; [reflexivity | exact Hn].
Qed.

End PipelineFacts.

(** C9. Two runs of [main] whose loaded times and ratios agree, and whose
    error series differ (or of which one has none, so that zeros stand in),
    bind the same fitted parameters, standard errors, [Kex] and [Kex_err],
    call the solver on the same data and print the same report: the error
    series reaches the plot only. *)
Theorem main_fit_independent_of_errors :
  forall (F : Type) (num : Num F) (curve_fit : solver F)
         (splitext : string -> string) (data1 data2 : ndarray F)
         (output : string) (times ratios errors1 errors2 : list F),
    load_data data1 = Ok (times, ratios, errors1) ->
    load_data data2 = Ok (times, ratios, errors2) ->
    fst (main curve_fit splitext data1 output)
    = fst (main curve_fit splitext data2 output)
    /\ fit_events (snd (main curve_fit splitext data1 output))
       = fit_events (snd (main curve_fit splitext data2 output))
    /\ fst (main curve_fit splitext data1 output)
       = fst (calc_rates curve_fit times ratios).
Proof.
  intros F num curve_fit splitext data1 data2 output
         times ratios errors1 errors2 E1 E2.
  destruct (main_fit curve_fit splitext data1 output _ _ _ E1) as [R1 T1].
  destruct (main_fit curve_fit splitext data2 output _ _ _ E2) as [R2 T2].
  split; [congruence|]. split; [congruence | exact R1].
Qed.

Lemma main_fit_independent_of_errors_witness :
  (load_data data_2col
   = Ok (times3, ratios3, [0; 0; 0]%float)
   /\ load_data data_3col
      = Ok (times3, ratios3, [0.5; 0.25; 0.125]%float))
  /\ (fst (main (solver_returning popt_1_2 pcov_9_64) (fun p => p)
             data_2col "exsy")
      = fst (main (solver_returning popt_1_2 pcov_9_64) (fun p => p)
               data_3col "exsy")
      /\ fit_events
           (snd (main (solver_returning popt_1_2 pcov_9_64) (fun p => p)
                   data_2col "exsy"))
         = fit_events
             (snd (main (solver_returning popt_1_2 pcov_9_64) (fun p => p)
                     data_3col "exsy"))
      /\ fst (main (solver_returning popt_1_2 pcov_9_64) (fun p => p)
                data_2col "exsy")
         = fst (calc_rates (solver_returning popt_1_2 pcov_9_64)
                  times3 ratios3)).
Proof.
  split; [split; reflexivity|].
  apply (main_fit_independent_of_errors float float_Num
           (solver_returning popt_1_2 pcov_9_64) (fun p => p)
           data_2col data_3col "exsy" times3 ratios3
           [0; 0; 0]%float [0.5; 0.25; 0.125]%float);
    reflexivity.
Defined.

(** C10, as the code has it. A loaded two-dimensional array of exactly two
    columns yields its first column as times, its second as ratios, and an
    error series made of zeros only, as long as the ratio series; the three
    sequences have one length, the number of rows. *)
Theorem load_data_two_columns_zero_errors :
  forall (F : Type) (num : Num F) (rows : list (list F)),
  exists times ratios errors,
    load_data (Mat 2 rows) = Ok (times, ratios, errors)
    /\ times = map (fun r => nth 0 r (flit 0)) rows
    /\ ratios = map (fun r => nth 1 r (flit 0)) rows
    /\ errors = repeat (flit 0) (length ratios)
    /\ length times = length rows
    /\ length ratios = length rows
    /\ length errors = length rows.
Proof.
  intros F num rows.
  exists (map (fun r => nth 0 r (flit 0)) rows),
         (map (fun r => nth 1 r (flit 0)) rows),
         (zeros_like (map (fun r => nth 1 r (flit 0)) rows)).
  split; [apply load_data_Mat_2|].
  split; [reflexivity|]. split; [reflexivity|].
  split; [apply zeros_like_repeat|].
  unfold zeros_like. now rewrite !length_map.
Qed.

(** C10 as stated fails: a file of two columns and a single row reaches
    [load_data] as the one-dimensional array that [np.loadtxt] squeezed it
    to, and [data[:, 0]] raises an [IndexError]; no sequence is returned. *)
Lemma load_data_one_row_two_columns_raises :
  load_data (Vec [10; 0.125]%float) = Raised IndexError.
Proof. reflexivity. Qed.


(* ================================================================= *)
(** ** More on the loader *)

Section LoaderFacts.
Context {F : Type} `{Num F}.

Lemma column_length (data : ndarray F) (j : nat) (xs : list F) :
  column data j = Ok xs ->
  exists ncols rows, data = Mat ncols rows /\ length xs = length rows.
Proof.
  destruct data as [v|ncols rows]; unfold column; [discriminate|].
  destruct (j <? ncols); [|discriminate].
  intro E. injection E as <-.
  exists ncols, rows. split; [reflexivity|]. now rewrite length_map.
Qed.

Lemma nth_firstn (j n : nat) (r : list F) (d : F) :
  j < n -> nth j (firstn n r) d = nth j r d.
Proof.
  revert j r. induction n as [|n IH]; intros j r Hj; [lia|].
  destruct r as [|x r]; [reflexivity|].
  destruct j as [|j]; [reflexivity|].
  cbn. apply IH. lia.
Qed.

Lemma map_nth_firstn (j n : nat) (rows : list (list F)) (d : F) :
  j < n ->
  map (fun r => nth j r d) (map (firstn n) rows)
  = map (fun r => nth j r d) rows.
Proof.
  intro Hj. rewrite map_map. apply map_ext.
  intro r. now apply nth_firstn.
Qed.

End LoaderFacts.

(** X1. [load_data] fails exactly on an array of fewer than two dimensions
    or of fewer than two columns, and then with an [IndexError]. *)
Theorem load_data_fails_iff_too_few_columns :
  forall (F : Type) (num : Num F) (data : ndarray F),
    (forall e, load_data data = Raised e -> e = IndexError)
    /\ ((exists e, load_data data = Raised e)
        <-> match data with
            | Vec _ => True
            | Mat ncols _ => ncols < 2
            end).
Proof.
  intros F num data.
  destruct data as [v|ncols rows].
  - change (load_data (Vec v)) with (@Raised (list F * list F * list F) IndexError).
    split; [intros e E; now inversion E|].
    split; [trivial | intros _; now exists IndexError].
  - destruct ncols as [|[|[|n]]].
    + change (load_data (Mat 0 rows))
        with (@Raised (list F * list F * list F) IndexError).
      split; [intros e E; now inversion E|].
      split; [lia | intros _; now exists IndexError].
    + change (load_data (Mat 1 rows))
        with (@Raised (list F * list F * list F) IndexError).
      split; [intros e E; now inversion E|].
      split; [lia | intros _; now exists IndexError].
    + rewrite load_data_Mat_2.
      split; [intros e E; discriminate|].
      split; [intros [e E]; discriminate | lia].
    + change (load_data (Mat (S (S (S n))) rows))
        with (Ok (map (fun r => nth 0 r (flit 0)) rows,
                  map (fun r => nth 1 r (flit 0)) rows,
                  map (fun r => nth 2 r (flit 0)) rows)).
      split; [intros e E; discriminate|].
      split; [intros [e E]; discriminate | lia].
Qed.

(** X2. Whenever [load_data] returns, its three sequences have one length:
    the number of rows of the two-dimensional array it was given. *)
Theorem load_data_equal_lengths :
  forall (F : Type) (num : Num F) (data : ndarray F)
         (times ratios errors : list F),
    load_data data = Ok (times, ratios, errors) ->
    exists ncols rows,
      data = Mat ncols rows
      /\ length times = length rows
      /\ length ratios = length rows
      /\ length errors = length rows.
Proof.
  intros F num data times ratios errors E.
  unfold load_data, rbind in E.
  destruct (column data 0) as [t|e0] eqn:E0; [|discriminate].
  destruct (column data 1) as [r|e1] eqn:E1; [|discriminate].
  destruct (shape_1 data) as [n|e2] eqn:E2; [|discriminate].
  destruct (column_length data 0 t E0) as (ncols & rows & -> & Ht).
  destruct (column_length _ 1 r E1) as (ncols' & rows' & Hd & Hr).
  injection Hd as <- <-.
  exists ncols, rows. split; [reflexivity|].
  destruct (2 <? n).
  - destruct (column (Mat ncols rows) 2) as [er|e3] eqn:E3; [|discriminate].
    destruct (column_length _ 2 er E3) as (ncols' & rows' & Hd & He).
    injection Hd as <- <-.
    injection E as <- <- <-. auto.
  - injection E as <- <- <-.
    unfold zeros_like. rewrite length_map. auto.
Qed.

Lemma load_data_equal_lengths_witness :
  load_data data_3col = Ok (times3, ratios3, [0.5; 0.25; 0.125]%float)
  /\ exists ncols rows,
      data_3col = Mat ncols rows
      /\ length times3 = length rows
      /\ length ratios3 = length rows
      /\ length [0.5; 0.25; 0.125]%float = length rows.
Proof.
  split; [reflexivity|].
  apply (load_data_equal_lengths float float_Num data_3col
           times3 ratios3 [0.5; 0.25; 0.125]%float).
  reflexivity.
Defined.

(** X3. With three columns or more, the error series is the third column
    and every further column is ignored: the array loads as its first three
    columns do. *)
Theorem load_data_ignores_columns_past_third :
  forall (F : Type) (num : Num F) (ncols : nat) (rows : list (list F)),
    3 <= ncols ->
    load_data (Mat ncols rows)
    = Ok (map (fun r => nth 0 r (flit 0)) rows,
          map (fun r => nth 1 r (flit 0)) rows,
          map (fun r => nth 2 r (flit 0)) rows)
    /\ load_data (Mat ncols rows)
       = load_data (Mat 3 (map (firstn 3) rows)).
Proof.
  intros F num ncols rows Hn.
  destruct ncols as [|[|[|n]]]; try lia.
  split; [reflexivity|].
  change (load_data (Mat 3 (map (firstn 3) rows)))
    with (Ok (map (fun r => nth 0 r (flit 0)) (map (firstn 3) rows),
              map (fun r => nth 1 r (flit 0)) (map (firstn 3) rows),
              map (fun r => nth 2 r (flit 0)) (map (firstn 3) rows))).
  rewrite !map_nth_firstn by lia. reflexivity.
Qed.

Lemma load_data_ignores_columns_past_third_witness :
  3 <= 4
  /\ (load_data (Mat 4 [[10; 0.125; 0.5; 7]; [50; 0.25; 0.25; 8]]%float)
      = Ok ([10; 50], [0.125; 0.25], [0.5; 0.25])%float
      /\ load_data (Mat 4 [[10; 0.125; 0.5; 7]; [50; 0.25; 0.25; 8]]%float)
         = load_data
             (Mat 3 (map (firstn 3)
                       [[10; 0.125; 0.5; 7]; [50; 0.25; 0.25; 8]]%float))).
Proof.
  split; [lia|].
  apply (load_data_ignores_columns_past_third float float_Num 4
           [[10; 0.125; 0.5; 7]; [50; 0.25; 0.25; 8]]%float).
  lia.
Defined.

(* ================================================================= *)
(** ** More on the rate estimator *)

Section RateEstimatorFailure.
Context {F : Type} `{Num F}.
Variable curve_fit : solver F.
Variables times ratios : list F.

(** A run that fails did nothing but call the solver, and fails with the
    solver's exception or on an index. *)
Lemma calc_rates_failure (e : exn) :
  fst (calc_rates curve_fit times ratios) = Raised e ->
  snd (calc_rates curve_fit times ratios)
  = [CallCurveFit Calc_iratio times ratios]
  /\ (curve_fit Calc_iratio times ratios = Raised e
      \/ ((exists a, curve_fit Calc_iratio times ratios = Ok a)
          /\ e = IndexError)).
Proof.
  destruct (curve_fit Calc_iratio times ratios) as [[popt cov]|e'] eqn:Ecf.
  - unfold calc_rates, call_curve_fit, bind, lift, getitem.
    rewrite Ecf.
    destruct (nth_error popt 0);
      [|intro E; cbn in E; injection E as <-;
        split; [reflexivity|right; eauto]].
    destruct (nth_error popt 1);
      [|intro E; cbn in E; injection E as <-;
        split; [reflexivity|right; eauto]].
    destruct (nth_error (map fsqrt (np_diag cov)) 0);
      [|intro E; cbn in E; injection E as <-;
        split; [reflexivity|right; eauto]].
    destruct (nth_error (map fsqrt (np_diag cov)) 1);
      [|intro E; cbn in E; injection E as <-;
        split; [reflexivity|right; eauto]].
    intro E; cbn in E; discriminate E.
  - rewrite (calc_rates_raised curve_fit times ratios e' Ecf).
    intro E. cbn in E. injection E as <-. split; [reflexivity | now left].
Qed.

End RateEstimatorFailure.

(** X4. A call of [calc_rates] that fails has printed nothing: all it did
    was the one call of the solver.  The exception is the solver's own, or
    an [IndexError] when the solver's answer has fewer than two parameters
    or fewer than two diagonal entries. *)
Theorem calc_rates_failure_prints_nothing :
  forall (F : Type) (num : Num F) (curve_fit : solver F)
         (times ratios : list F) (e : exn),
    fst (calc_rates curve_fit times ratios) = Raised e ->
    snd (calc_rates curve_fit times ratios)
    = [CallCurveFit Calc_iratio times ratios]
    /\ (curve_fit Calc_iratio times ratios = Raised e
        \/ ((exists a, curve_fit Calc_iratio times ratios = Ok a)
            /\ e = IndexError)).
Proof.
  intros F num curve_fit times ratios e. apply calc_rates_failure.
Qed.

Lemma calc_rates_failure_prints_nothing_witness :
  fst (calc_rates (solver_returning [1]%float pcov_9_64) times3 ratios3)
  = Raised IndexError
  /\ (snd (calc_rates (solver_returning [1]%float pcov_9_64)
             times3 ratios3)
      = [CallCurveFit Calc_iratio times3 ratios3]
      /\ (solver_returning [1]%float pcov_9_64 Calc_iratio times3 ratios3
          = Raised IndexError
          \/ ((exists a,
                 solver_returning [1]%float pcov_9_64
                   Calc_iratio times3 ratios3 = Ok a)
              /\ IndexError = IndexError))).
Proof.
  split; [reflexivity|].
  apply (calc_rates_failure_prints_nothing float float_Num
           (solver_returning [1]%float pcov_9_64) times3 ratios3
           IndexError).
  reflexivity.
Defined.

(** ** A covariance that could not be estimated, in binary64 *)

Lemma div_nonfinite_l (x y : float) :
  nonfinite x -> nonfinite (PrimFloat.div x y).
Proof.
  rewrite !nonfinite_SF, div_spec.
  destruct (Prim2SF x) as [sx|sx| |sx mx ex]; try discriminate; intros _;
    destruct (Prim2SF y) as [sy|sy| |sy my ey]; reflexivity.
Qed.

(** X9. In binary64, whenever the solver's covariance has an infinite
    variance on its diagonal (its sign of a covariance it could not
    estimate), [calc_rates] returns, the matching standard error is
    infinite, and the returned error of Kex is an infinity or a NaN,
    whatever the fitted rates. *)
Theorem calc_rates_infinite_variance_gives_nonfinite_error :
  forall (curve_fit : solver float) (times ratios : list float)
         (k12 k21 c00 c01 c10 c11 : float),
    curve_fit Calc_iratio times ratios
    = Ok ([k12; k21], [[c00; c01]; [c10; c11]]) ->
    c00 = infinity \/ c11 = infinity ->
    exists s12 s21 Kex K_error,
      fst (calc_rates curve_fit times ratios)
      = Ok ([k12; k21], [s12; s21], Kex, K_error)
      /\ (c00 = infinity -> s12 = infinity)
      /\ (c11 = infinity -> s21 = infinity)
      /\ nonfinite K_error.
Proof.
  intros curve_fit times ratios k12 k21 c00 c01 c10 c11 E Hinf.
  rewrite (calc_rates_returns curve_fit times ratios
             [k12; k21] [[c00; c01]; [c10; c11]]
             k12 k21 (fsqrt c00) (fsqrt c11)
             E eq_refl eq_refl eq_refl eq_refl).
  do 4 eexists. split; [reflexivity|].
  split; [intros ->; reflexivity|].
  split; [intros ->; reflexivity|].
  apply mul_nonfinite_r, sqrt_nonfinite.
  destruct Hinf as [->| ->].
  - apply add_nonfinite_l. unfold pow2.
    apply mul_nonfinite_l, div_nonfinite_l. reflexivity.
  - apply add_nonfinite_r. unfold pow2.
    apply mul_nonfinite_l, div_nonfinite_l. reflexivity.
Qed.

Lemma calc_rates_infinite_variance_gives_nonfinite_error_witness :
  (solver_returning popt_1_2 pcov_inf Calc_iratio times3 ratios3
   = Ok ([1; 2]%float, [[infinity; infinity]; [infinity; infinity]])
   /\ (infinity = infinity \/ infinity = infinity))
  /\ exists s12 s21 Kex K_error,
      fst (calc_rates (solver_returning popt_1_2 pcov_inf) times3 ratios3)
      = Ok ([1; 2]%float, [s12; s21], Kex, K_error)
      /\ (infinity = infinity -> s12 = infinity)
      /\ (infinity = infinity -> s21 = infinity)
      /\ nonfinite K_error.
Proof.
  split; [split; [reflexivity | left; reflexivity]|].
  apply (calc_rates_infinite_variance_gives_nonfinite_error
           (solver_returning popt_1_2 pcov_inf) times3 ratios3
           1%float 2%float infinity infinity infinity infinity);
    [reflexivity | left; reflexivity].
Defined.

(** ** The sign of the propagated error, in binary64 *)

Section SignFacts.
Variables prec emax : Z.

(** Rounding keeps the sign it is given. *)
Lemma binary_round_aux_sign sx mx ex lx :
  SF_nan_or_sign sx (binary_round_aux prec emax sx mx ex lx).
Proof.
  unfold binary_round_aux, SF_nan_or_sign.
  destruct (shr_fexp prec emax mx ex lx) as [mrs' e'].
  destruct (shr_fexp prec emax _ e' loc_Exact) as [mrs'' e''].
  destruct (shr_m mrs'') as [|m|m]; cbn; auto.
  destruct (Z.leb e'' (emax - prec)); cbn; auto.
Qed.

Lemma binary_round_sign sx mx ex :
  SF_nan_or_sign sx (binary_round prec emax sx mx ex).
Proof.
  unfold binary_round.
  destruct (shl_align mx ex _) as [mz ez].
  apply binary_round_aux_sign.
Qed.

(** A square is a NaN or has a clear sign bit. *)
Lemma SFmul_square_sign x : SF_nan_or_sign false (SFmul prec emax x x).
Proof.
  destruct x as [s|s| |s m e]; cbn.
  - right. now destruct s.
  - right. now destruct s.
  - now left.
  - replace (xorb s s) with false by now destruct s.
    apply binary_round_aux_sign.
Qed.

(** So is a sum of two such numbers, and the square root of one. *)
Lemma SFadd_nonneg_sign a b :
  SF_nan_or_sign false a -> SF_nan_or_sign false b ->
  SF_nan_or_sign false (SFadd prec emax a b).
Proof.
  intros [Ha|Ha] Hb.
  - destruct a; try discriminate. now left.
  - destruct Hb as [Hb|Hb].
    + destruct b; try discriminate. left. now destruct a.
    + destruct a as [sa|sa| |sa ma ea]; try discriminate;
        cbn in Ha; injection Ha as ->;
        destruct b as [sb|sb| |sb mb eb]; try discriminate;
        cbn in Hb; injection Hb as ->; cbn; try (right; reflexivity).
      apply binary_round_sign.
Qed.

Lemma SFsqrt_nonneg_sign q :
  SF_nan_or_sign false q -> SF_nan_or_sign false (SFsqrt prec emax q).
Proof.
  intros [Hq|Hq].
  - destruct q; try discriminate. now left.
  - destruct q as [s|s| |s m e]; try discriminate;
      cbn in Hq; injection Hq as ->; cbn; try (right; reflexivity).
    destruct (SFsqrt_core_binary prec emax (Z.pos m) e) as [[mz ez] lz].
    apply binary_round_aux_sign.
Qed.

(** A product with such a number is a NaN or keeps the other sign. *)
Lemma SFmul_nonneg_sign x r :
  SF_nan_or_sign false r ->
  SF_sign (SFmul prec emax x r) = None
  \/ SF_sign (SFmul prec emax x r) = SF_sign x.
Proof.
  intros [Hr|Hr].
  - destruct r; try discriminate. left. now destruct x.
  - destruct r as [sr|sr| |sr mr er]; try discriminate;
      cbn in Hr; injection Hr as ->;
      destruct x as [sx|sx| |sx mx ex]; cbn; auto;
      rewrite ?xorb_false_r; auto.
    apply binary_round_aux_sign.
Qed.

End SignFacts.

Lemma ltb_zero_sign (x : float) :
  PrimFloat.ltb x 0 = true -> SF_sign (Prim2SF x) = Some true.
Proof.
  rewrite ltb_spec. change (Prim2SF 0) with (S754_zero false).
  destruct (Prim2SF x) as [s|s| |s m e]; cbn; try discriminate;
    destruct s; try discriminate; reflexivity.
Qed.

Lemma zero_ltb_sign (x : float) :
  PrimFloat.ltb 0 x = true -> SF_sign (Prim2SF x) = Some false.
Proof.
  rewrite ltb_spec. change (Prim2SF 0) with (S754_zero false).
  destruct (Prim2SF x) as [s|s| |s m e]; cbn; try discriminate;
    destruct s; try discriminate; reflexivity.
Qed.

Lemma sign_true_not_positive (x : float) :
  SF_nan_or_sign true (Prim2SF x) -> PrimFloat.ltb 0 x = false.
Proof.
  rewrite ltb_spec. change (Prim2SF 0) with (S754_zero false).
  intros [Hx|Hx]; destruct (Prim2SF x) as [s|s| |s m e]; try discriminate;
    try reflexivity; cbn in Hx; injection Hx as ->; reflexivity.
Qed.

Lemma sign_false_not_negative (x : float) :
  SF_nan_or_sign false (Prim2SF x) -> PrimFloat.ltb x 0 = false.
Proof.
  rewrite ltb_spec. change (Prim2SF 0) with (S754_zero false).
  intros [Hx|Hx]; destruct (Prim2SF x) as [s|s| |s m e]; try discriminate;
    try reflexivity; cbn in Hx; injection Hx as ->; reflexivity.
Qed.

(** [kex * sqrt (a*a + b*b)] is a NaN or has the sign bit of [kex]. *)
Lemma propagated_error_sign (kex a b : float) :
  SF_sign (Prim2SF (kex * PrimFloat.sqrt (a * a + b * b))%float) = None
  \/ SF_sign (Prim2SF (kex * PrimFloat.sqrt (a * a + b * b))%float)
     = SF_sign (Prim2SF kex).
Proof.
  rewrite mul_spec. apply SFmul_nonneg_sign.
  rewrite sqrt_spec. apply SFsqrt_nonneg_sign.
  rewrite add_spec. apply SFadd_nonneg_sign;
    rewrite mul_spec; apply SFmul_square_sign.
Qed.

(** X6. In binary64, the returned error of Kex is a NaN or carries the sign
    bit of Kex, since no absolute value is taken: a negative Kex never gets
    a positive error (it gets a negative one, -0.0 or NaN), and a positive
    Kex never gets a negative one. *)
Theorem calc_rates_error_carries_sign_of_Kex :
  forall (curve_fit : solver float) (times ratios : list float)
         (k12 k21 c00 c01 c10 c11 : float),
    curve_fit Calc_iratio times ratios
    = Ok ([k12; k21], [[c00; c01]; [c10; c11]]) ->
    exists p_sigma Kex K_error,
      fst (calc_rates curve_fit times ratios)
      = Ok ([k12; k21], p_sigma, Kex, K_error)
      /\ (SF_sign (Prim2SF K_error) = None
          \/ SF_sign (Prim2SF K_error) = SF_sign (Prim2SF Kex))
      /\ (PrimFloat.ltb Kex 0 = true -> PrimFloat.ltb 0 K_error = false)
      /\ (PrimFloat.ltb 0 Kex = true -> PrimFloat.ltb K_error 0 = false).
Proof.
  intros curve_fit times ratios k12 k21 c00 c01 c10 c11 E.
  rewrite (calc_rates_returns curve_fit times ratios
             [k12; k21] [[c00; c01]; [c10; c11]]
             k12 k21 (fsqrt c00) (fsqrt c11)
             E eq_refl eq_refl eq_refl eq_refl).
  exists [PrimFloat.sqrt c00; PrimFloat.sqrt c11], (PrimFloat.div k12 k21),
    (PrimFloat.div k12 k21
     * PrimFloat.sqrt
         (PrimFloat.div (PrimFloat.sqrt c00) k12
          * PrimFloat.div (PrimFloat.sqrt c00) k12
          + PrimFloat.div (PrimFloat.sqrt c11) k21
            * PrimFloat.div (PrimFloat.sqrt c11) k21))%float.
  split; [reflexivity|].
  pose proof (propagated_error_sign (PrimFloat.div k12 k21)
                (PrimFloat.div (PrimFloat.sqrt c00) k12)
                (PrimFloat.div (PrimFloat.sqrt c11) k21)) as Hs.
  split; [exact Hs|]. split.
  - intro Hneg. apply sign_true_not_positive.
    rewrite (ltb_zero_sign _ Hneg) in Hs. exact Hs.
  - intro Hpos. apply sign_false_not_negative.
    rewrite (zero_ltb_sign _ Hpos) in Hs. exact Hs.
Qed.

Lemma calc_rates_error_carries_sign_of_Kex_witness :
  solver_returning [-1; 2]%float pcov_9_64 Calc_iratio times3 ratios3
  = Ok ([-1; 2]%float, [[9; 0]; [0; 64]]%float)
  /\ exists p_sigma Kex K_error,
      fst (calc_rates (solver_returning [-1; 2]%float pcov_9_64)
             times3 ratios3)
      = Ok ([-1; 2]%float, p_sigma, Kex, K_error)
      /\ (SF_sign (Prim2SF K_error) = None
          \/ SF_sign (Prim2SF K_error) = SF_sign (Prim2SF Kex))
      /\ (PrimFloat.ltb Kex 0 = true -> PrimFloat.ltb 0 K_error = false)
      /\ (PrimFloat.ltb 0 Kex = true -> PrimFloat.ltb K_error 0 = false).
Proof.
  split; [reflexivity|].
  apply (calc_rates_error_carries_sign_of_Kex
           (solver_returning [-1; 2]%float pcov_9_64) times3 ratios3
           (-1)%float 2%float 9%float 0%float 0%float 64%float).
  reflexivity.
Defined.

(* ================================================================= *)
(** ** More on [main] *)

Section MainFacts.
Context {F : Type} `{Num F}.
Variable curve_fit : solver F.
Variable splitext : string -> string.

(** A load that fails ends [main] before anything happened. *)
Lemma main_load_failed (data : ndarray F) (output : string) (e : exn) :
  load_data data = Raised e ->
  main curve_fit splitext data output = (Raised e, []).
Proof. intro E. unfold main. rewrite E. reflexivity. Qed.

(** The events of [calc_rates]: the call alone, or the call and the three
    lines. *)
Lemma calc_rates_events (times ratios : list F) :
  snd (calc_rates curve_fit times ratios)
  = [CallCurveFit Calc_iratio times ratios]
  \/ exists p0 p1 s0 s1,
      snd (calc_rates curve_fit times ratios)
      = report times ratios p0 p1 s0 s1.
Proof.
  destruct (calc_rates curve_fit times ratios)
    as [[[[[param ps] K] Ke]|e] tr] eqn:E.
  - right. apply calc_rates_inv in E.
    destruct E as (cov & p0 & p1 & s0 & s1 & _ & _ & _ & _ & _ & _ & _ & _ & ->).
    now exists p0, p1, s0, s1.
  - left.
    pose proof (calc_rates_failure curve_fit times ratios e) as Hf.
    rewrite E in Hf. destruct (Hf eq_refl) as [Htr _]. exact Htr.
Qed.

(** The only solver call among them is the one on [times] and [ratios]. *)
Lemma calc_rates_solver_call (times ratios xdata ydata : list F)
      (f : callable) :
  In (CallCurveFit f xdata ydata) (snd (calc_rates curve_fit times ratios)) ->
  f = Calc_iratio /\ xdata = times /\ ydata = ratios.
Proof.
  destruct (calc_rates_events times ratios) as [->|(p0 & p1 & s0 & s1 & ->)];
    cbn; intros [E|Hin].
  - now injection E as <- <- <-.
  - contradiction.
  - now injection E as <- <- <-.
  - destruct Hin as [E|[E|[E|[]]]]; discriminate E.
Qed.

End MainFacts.

(** X10. A failure of the loader or of the fit ends [main] at once with
    that exception: after a failed load nothing at all has happened (the
    solver was not called); after a failed fit the call of the solver is
    the only event.  In both cases nothing was printed and [plot_fit] was
    not called. *)
Theorem main_stops_at_failed_load_or_fit :
  forall (F : Type) (num : Num F) (curve_fit : solver F)
         (splitext : string -> string) (data : ndarray F)
         (output : string) (e : exn),
    (load_data data = Raised e
     \/ exists times ratios errors,
          load_data data = Ok (times, ratios, errors)
          /\ fst (calc_rates curve_fit times ratios) = Raised e) ->
    main curve_fit splitext data output
    = (Raised e,
       match load_data data with
       | Raised _ => []
       | Ok (times, ratios, _) => [CallCurveFit Calc_iratio times ratios]
       end).
Proof.
  intros F num curve_fit splitext data output e
         [El|(times & ratios & errors & El & Ef)].
  - rewrite (main_load_failed curve_fit splitext data output e El), El.
    reflexivity.
  - rewrite (main_run curve_fit splitext data output _ _ _ El), El.
    pose proof (calc_rates_failure curve_fit times ratios e Ef) as [Htr _].
    destruct (calc_rates curve_fit times ratios)
      as [[[[[param ps] K] Ke]|e0] tr]; cbn in Ef, Htr; [discriminate|].
    injection Ef as ->. subst tr. reflexivity.
Qed.

Lemma main_stops_at_failed_load_or_fit_witness :
  (load_data data_3col = Raised RuntimeError
   \/ exists times ratios errors,
        load_data data_3col = Ok (times, ratios, errors)
        /\ fst (calc_rates (fun _ _ _ => Raised RuntimeError) times ratios)
           = Raised RuntimeError)
  /\ main (fun _ _ _ => Raised RuntimeError) (fun p => p) data_3col "exsy"
     = (Raised RuntimeError,
        match load_data data_3col with
        | Raised _ => []
        | Ok (times, ratios, _) => [CallCurveFit Calc_iratio times ratios]
        end).
Proof.
  assert (Hyp :
    load_data data_3col = Raised RuntimeError
    \/ exists times ratios errors,
         load_data data_3col = Ok (times, ratios, errors)
         /\ fst (calc_rates (fun _ _ _ => Raised RuntimeError) times ratios)
            = Raised RuntimeError).
  { right. exists times3, ratios3, [0.5; 0.25; 0.125]%float.
    split; reflexivity. }
  split; [exact Hyp|].
  exact (main_stops_at_failed_load_or_fit float float_Num
           (fun _ _ _ => Raised RuntimeError) (fun p => p)
           data_3col "exsy" RuntimeError Hyp).
Defined.

(** X11. A run of [main] that gets through ends with the plot, and the plot
    is handed the three loaded series, the output name without its
    extension, and the fitted parameters exactly as the solver returned
    them (not the values multiplied by 1000 that were printed). *)
Theorem main_plots_loaded_series_and_raw_fit :
  forall (F : Type) (num : Num F) (curve_fit : solver F)
         (splitext : string -> string) (data : ndarray F)
         (output : string) (fit_params fit_errors : list F)
         (Kex Kex_err : F) (tr : list (event F)),
    main curve_fit splitext data output
    = (Ok (fit_params, fit_errors, Kex, Kex_err), tr) ->
    exists times ratios errors cov p0 p1 s0 s1,
      load_data data = Ok (times, ratios, errors)
      /\ curve_fit Calc_iratio times ratios = Ok (fit_params, cov)
      /\ tr = report times ratios p0 p1 s0 s1
              ++ [PlotFit times ratios errors fit_params (splitext output)].
Proof.
  intros F num curve_fit splitext data output fp fe K Ke tr E.
  destruct (load_data data) as [[[times ratios] errors]|e'] eqn:El;
    [|rewrite (main_load_failed curve_fit splitext data output e' El) in E;
      discriminate].
  rewrite (main_run curve_fit splitext data output _ _ _ El) in E.
  destruct (calc_rates curve_fit times ratios)
    as [[[[[param ps] K0] Ke0]|e0] tr0] eqn:Ec; [|discriminate].
  injection E as <- <- <- <- <-.
  apply calc_rates_inv in Ec.
  destruct Ec as (cov & p0 & p1 & s0 & s1 & Ecf & _ & _ & _ & _ & _ & _ & _ & ->).
  exists times, ratios, errors, cov, p0, p1, s0, s1. auto.
Qed.

Lemma main_plots_loaded_series_and_raw_fit_witness :
  main (solver_returning popt_1_2 pcov_9_64) (fun p => p) data_3col "exsy"
  = (Ok ([1; 2], [3; 8], 0.5, 2.5)%float,
     report times3 ratios3 1%float 2%float 3%float 8%float
     ++ [PlotFit times3 ratios3 [0.5; 0.25; 0.125]%float [1; 2]%float
           "exsy"])
  /\ exists times ratios errors cov p0 p1 s0 s1,
      load_data data_3col = Ok (times, ratios, errors)
      /\ solver_returning popt_1_2 pcov_9_64 Calc_iratio times ratios
         = Ok ([1; 2]%float, cov)
      /\ report times3 ratios3 1%float 2%float 3%float 8%float
         ++ [PlotFit times3 ratios3 [0.5; 0.25; 0.125]%float [1; 2]%float
               "exsy"]
         = report times ratios p0 p1 s0 s1
           ++ [PlotFit times ratios errors [1; 2]%float "exsy"].
Proof.
  split; [vm_compute; reflexivity|].
  apply (main_plots_loaded_series_and_raw_fit float float_Num
           (solver_returning popt_1_2 pcov_9_64) (fun p => p)
           data_3col "exsy" [1; 2]%float [3; 8]%float
           0.5%float 2.5%float).
  vm_compute; reflexivity.
Defined.

(* ================================================================= *)
(** ** Runs from the command line *)

Section CommandLineFacts.
Context {F : Type} `{Num F}.
Variable curve_fit : solver F.
Variable splitext : string -> string.
Variable path_exists : string -> bool.
Variable style_use : string -> result unit.
Variable loadtxt : string -> result (ndarray F).

(** The style step does nothing, or is the one call of [plt.style.use]. *)
Lemma apply_style_cases (style : option string) :
  (style_given style = None \/
   exists s, style_given style = Some s /\ path_exists s = false)
  /\ apply_style (F:=F) path_exists style_use style = (Ok tt, [])
  \/ exists s, style_given style = Some s /\ path_exists s = true
               /\ apply_style (F:=F) path_exists style_use style
                  = (style_use s, [UseStyle s]).
Proof.
  unfold apply_style.
  destruct (style_given style) as [s|]; [|left; auto].
  destruct (path_exists s) eqn:E.
  - right. now exists s.
  - left. split; [right; now exists s | reflexivity].
Qed.

Lemma pipeline_events_app (tr1 tr2 : list (cli_event F)) :
  pipeline_events (tr1 ++ tr2) = pipeline_events tr1 ++ pipeline_events tr2.
Proof. unfold pipeline_events. apply flat_map_app. Qed.

(** The events of the style step are [UseStyle] events. *)
Lemma in_apply_style (style : option string) (ev : cli_event F) :
  In ev (snd (apply_style path_exists style_use style)) ->
  exists s, ev = UseStyle s.
Proof.
  destruct (apply_style_cases style) as [[_ ->]|(s & _ & _ & ->)];
    cbn; [contradiction|].
  intros [<-|[]]. now exists s.
Qed.

Lemma pipeline_events_apply_style (style : option string) :
  pipeline_events (snd (apply_style (F:=F) path_exists style_use style))
  = [].
Proof.
  destruct (apply_style_cases style) as [[_ ->]|(s & _ & _ & ->)];
    reflexivity.
Qed.

(** With the input file missing, lines 132-134 print and return. *)
Lemma main_after_style_missing_input (args : cli_args) :
  path_exists (arg_input args) = false ->
  main_after_style curve_fit splitext path_exists loadtxt args
  = (Ok None, [PrintFileNotFound (arg_input args)]).
Proof. intro E. unfold main_after_style. now rewrite E. Qed.

(** The events of [main] on an array that loads: the one call of the
    solver, then printed lines and the plot. *)
Lemma main_events (data : ndarray F) (output : string)
      (times ratios errors : list F) :
  load_data data = Ok (times, ratios, errors) ->
  exists rest,
    snd (main curve_fit splitext data output)
    = CallCurveFit Calc_iratio times ratios :: rest
    /\ forall f xdata ydata, ~ In (CallCurveFit f xdata ydata) rest.
Proof.
  intro El. rewrite (main_run curve_fit splitext data output _ _ _ El).
  destruct (calc_rates_events curve_fit times ratios)
    as [Htr|(p0 & p1 & s0 & s1 & Htr)];
    destruct (calc_rates curve_fit times ratios)
      as [[[[[param ps] K] Ke]|e0] tr]; cbn in Htr; subst tr; cbn.
  - eexists. split; [reflexivity|].
    intros f x y [E|[]]. discriminate E.
  - exists []. split; [reflexivity|]. intros f x y [].
  - eexists. split; [reflexivity|].
    intros f x y [E|[E|[E|[E|[]]]]]; discriminate E.
  - eexists. split; [reflexivity|].
    intros f x y [E|[E|[E|[]]]]; discriminate E.
Qed.

End CommandLineFacts.

(** X12. When the input file does not exist, a run from the command line
    never reads a file, never calls the solver and never prints a report
    or plots.  If the style step went through (or there was none), the run
    ends normally and its last act is the "not found" message for the
    input path; if [plt.style.use] raised, the run ended there with that
    exception and no message. *)
Theorem main_cli_missing_input_reads_and_fits_nothing :
  forall (F : Type) (num : Num F) (curve_fit : solver F)
         (splitext : string -> string) (path_exists : string -> bool)
         (style_use : string -> result unit)
         (loadtxt : string -> result (ndarray F)) (args : cli_args),
    path_exists (arg_input args) = false ->
    (forall p, ~ In (LoadTxt p)
                 (snd (main_cli curve_fit splitext path_exists style_use
                         loadtxt args)))
    /\ pipeline_events
         (snd (main_cli curve_fit splitext path_exists style_use
                 loadtxt args))
       = []
    /\ match fst (apply_style (F:=F) path_exists style_use
                    (arg_style args)) with
       | Ok _ =>
           main_cli curve_fit splitext path_exists style_use loadtxt args
           = (Ok None,
              snd (apply_style path_exists style_use (arg_style args))
              ++ [PrintFileNotFound (arg_input args)])
       | Raised e =>
           main_cli curve_fit splitext path_exists style_use loadtxt args
           = (Raised e,
              snd (apply_style path_exists style_use (arg_style args)))
       end.
Proof.
  intros F num curve_fit splitext path_exists style_use loadtxt args E.
  assert (Hrun :
    match fst (apply_style (F:=F) path_exists style_use
                 (arg_style args)) with
    | Ok _ =>
        main_cli curve_fit splitext path_exists style_use loadtxt args
        = (Ok None,
           snd (apply_style path_exists style_use (arg_style args))
           ++ [PrintFileNotFound (arg_input args)])
    | Raised e =>
        main_cli curve_fit splitext path_exists style_use loadtxt args
        = (Raised e,
           snd (apply_style path_exists style_use (arg_style args)))
    end).
  { unfold main_cli.
    rewrite (main_after_style_missing_input curve_fit splitext
               path_exists loadtxt args E).
    destruct (apply_style path_exists style_use (arg_style args))
      as [[u|e] styled]; reflexivity. }
  pose proof (in_apply_style (F:=F) path_exists style_use
                (arg_style args)) as Hin.
  pose proof (pipeline_events_apply_style (F:=F) path_exists style_use
                (arg_style args)) as Hpe.
  destruct (apply_style path_exists style_use (arg_style args))
    as [[u|e] styled]; cbn [fst snd] in *; rewrite Hrun; cbn [snd].
  - split; [|split; [|reflexivity]].
    + intros p Hp. apply in_app_or in Hp. destruct Hp as [Hp|[Hp|[]]].
      * destruct (Hin _ Hp) as [s Hs]. discriminate Hs.
      * discriminate Hp.
    + rewrite pipeline_events_app, Hpe. reflexivity.
  - split; [|split; [exact Hpe | reflexivity]].
    intros p Hp. destruct (Hin _ Hp) as [s Hs]. discriminate Hs.
Qed.

Lemma main_cli_missing_input_reads_and_fits_nothing_witness :
  (fun _ : string => false) "data.txt"%string = false
  /\ ((forall p,
         ~ In (LoadTxt p)
             (snd (main_cli (solver_returning popt_1_2 pcov_9_64)
                     (fun p => p) (fun _ => false) (fun _ => Ok tt)
                     (fun _ => Ok data_3col)
                     {| arg_input := "data.txt"; arg_output := "exsy";
                        arg_style := Some "paper.mplstyle"%string |})))
      /\ pipeline_events
           (snd (main_cli (solver_returning popt_1_2 pcov_9_64)
                   (fun p => p) (fun _ => false) (fun _ => Ok tt)
                   (fun _ => Ok data_3col)
                   {| arg_input := "data.txt"; arg_output := "exsy";
                      arg_style := Some "paper.mplstyle"%string |}))
         = []
      /\ match fst (apply_style (F:=float) (fun _ => false)
                      (fun _ => Ok tt) (Some "paper.mplstyle"%string)) with
         | Ok _ =>
             main_cli (solver_returning popt_1_2 pcov_9_64)
               (fun p => p) (fun _ => false) (fun _ => Ok tt)
               (fun _ => Ok data_3col)
               {| arg_input := "data.txt"; arg_output := "exsy";
                  arg_style := Some "paper.mplstyle"%string |}
             = (Ok None,
                snd (apply_style (fun _ => false) (fun _ => Ok tt)
                       (Some "paper.mplstyle"%string))
                ++ [PrintFileNotFound "data.txt"])
         | Raised e =>
             main_cli (solver_returning popt_1_2 pcov_9_64)
               (fun p => p) (fun _ => false) (fun _ => Ok tt)
               (fun _ => Ok data_3col)
               {| arg_input := "data.txt"; arg_output := "exsy";
                  arg_style := Some "paper.mplstyle"%string |}
             = (Raised e,
                snd (apply_style (fun _ => false) (fun _ => Ok tt)
                       (Some "paper.mplstyle"%string)))
         end).
Proof.
  split; [reflexivity|].
  apply (main_cli_missing_input_reads_and_fits_nothing float float_Num
           (solver_returning popt_1_2 pcov_9_64) (fun p => p)
           (fun _ => false) (fun _ => Ok tt) (fun _ => Ok data_3col)
           {| arg_input := "data.txt"; arg_output := "exsy";
              arg_style := Some "paper.mplstyle"%string |}).
  reflexivity.
Defined.

(** X13. What [--style] does to a run.  An option that is absent, empty or
    names a file that does not exist is ignored without a word: the run is
    the run without the option.  A style that exists and is accepted by
    [plt.style.use] puts that one call in front and changes nothing else.
    A style that exists and makes [plt.style.use] raise ends the run with
    that exception before the input file is looked at. *)
Theorem main_cli_style_effect :
  forall (F : Type) (num : Num F) (curve_fit : solver F)
         (splitext : string -> string) (path_exists : string -> bool)
         (style_use : string -> result unit)
         (loadtxt : string -> result (ndarray F))
         (input output : string) (style : option string),
    match style_given style with
    | None =>
        main_cli curve_fit splitext path_exists style_use loadtxt
          {| arg_input := input; arg_output := output; arg_style := style |}
        = main_cli curve_fit splitext path_exists style_use loadtxt
            {| arg_input := input; arg_output := output;
               arg_style := None |}
    | Some s =>
        if path_exists s then
          match style_use s with
          | Ok _ =>
              fst (main_cli curve_fit splitext path_exists style_use loadtxt
                     {| arg_input := input; arg_output := output;
                        arg_style := style |})
              = fst (main_cli curve_fit splitext path_exists style_use
                       loadtxt
                       {| arg_input := input; arg_output := output;
                          arg_style := None |})
              /\ snd (main_cli curve_fit splitext path_exists style_use
                        loadtxt
                        {| arg_input := input; arg_output := output;
                           arg_style := style |})
                 = UseStyle s
                   :: snd (main_cli curve_fit splitext path_exists
                             style_use loadtxt
                             {| arg_input := input; arg_output := output;
                                arg_style := None |})
          | Raised e =>
              main_cli curve_fit splitext path_exists style_use loadtxt
                {| arg_input := input; arg_output := output;
                   arg_style := style |}
              = (Raised e, [UseStyle s])
          end
        else
          main_cli curve_fit splitext path_exists style_use loadtxt
            {| arg_input := input; arg_output := output;
               arg_style := style |}
          = main_cli curve_fit splitext path_exists style_use loadtxt
              {| arg_input := input; arg_output := output;
                 arg_style := None |}
    end.
Proof.
  intros F num curve_fit splitext path_exists style_use loadtxt
         input output style.
  unfold main_cli, apply_style. cbn [arg_style style_given].
  set (rest := main_after_style curve_fit splitext path_exists loadtxt).
  assert (Hrest : forall st,
            rest {| arg_input := input; arg_output := output;
                    arg_style := st |}
            = rest {| arg_input := input; arg_output := output;
                      arg_style := None |}) by reflexivity.
  rewrite (Hrest style).
  destruct (style_given style) as [s|]; [|reflexivity].
  destruct (path_exists s); [|reflexivity].
  destruct (style_use s) as [u|e]; [|reflexivity].
  destruct (rest _) as [r tr]. split; reflexivity.
Qed.

(** X14. In a run from the command line the solver is called at most once,
    and only after the input file was found and read: a recorded call of
    the solver comes right after the reading of the input file, which
    nothing but the style step precedes, and its data are column 0 and
    column 1 of the array that was read. *)
Theorem main_cli_solver_called_after_load :
  forall (F : Type) (num : Num F) (curve_fit : solver F)
         (splitext : string -> string) (path_exists : string -> bool)
         (style_use : string -> result unit)
         (loadtxt : string -> result (ndarray F)) (args : cli_args)
         (f : callable) (xdata ydata : list F),
    In (Pipeline (CallCurveFit f xdata ydata))
       (snd (main_cli curve_fit splitext path_exists style_use
               loadtxt args)) ->
    path_exists (arg_input args) = true
    /\ exists data errors pre post,
         loadtxt (arg_input args) = Ok data
         /\ load_data data = Ok (xdata, ydata, errors)
         /\ column data 0 = Ok xdata
         /\ column data 1 = Ok ydata
         /\ snd (main_cli curve_fit splitext path_exists style_use
                   loadtxt args)
            = pre ++ LoadTxt (arg_input args)
                  :: Pipeline (CallCurveFit f xdata ydata) :: post
         /\ (forall ev, In ev pre -> exists s, ev = UseStyle s)
         /\ (forall g x y, ~ In (Pipeline (CallCurveFit g x y)) post).
Proof.
  intros F num curve_fit splitext path_exists style_use loadtxt args
         f xdata ydata.
  pose proof (in_apply_style (F:=F) path_exists style_use
                (arg_style args)) as Hstyle.
  unfold main_cli.
  destruct (apply_style path_exists style_use (arg_style args))
    as [[u|e] styled]; cbn [snd] in Hstyle.
  2:{ cbn [snd]. intro Hin.
      destruct (Hstyle _ Hin) as [s Hs]. discriminate Hs. }
  unfold main_after_style.
  destruct (path_exists (arg_input args)); cbn [negb].
  2:{ cbn [snd]. intro Hin. apply in_app_or in Hin.
      destruct Hin as [Hin|[Hin|[]]];
        [destruct (Hstyle _ Hin) as [s Hs]; discriminate Hs
        | discriminate Hin]. }
  destruct (loadtxt (arg_input args)) as [data|e].
  2:{ cbn [snd]. intro Hin. apply in_app_or in Hin.
      destruct Hin as [Hin|[Hin|[]]];
        [destruct (Hstyle _ Hin) as [s Hs]; discriminate Hs
        | discriminate Hin]. }
  destruct (load_data data) as [[[times ratios] errors]|e'] eqn:El.
  - destruct (main_events curve_fit splitext data (arg_output args)
                times ratios errors El) as (rest & Htr & Hrest).
    destruct (main curve_fit splitext data (arg_output args)) as [r tr].
    cbn [snd] in *. subst tr. intro Hin.
    apply in_app_or in Hin. destruct Hin as [Hin|[Hin|Hin]].
    + destruct (Hstyle _ Hin) as [s Hs]. discriminate Hs.
    + discriminate Hin.
    + cbn [map] in Hin. destruct Hin as [Hin|Hin].
      * injection Hin as <- <- <-.
        split; [reflexivity|].
        exists data, errors, styled, (map Pipeline rest).
        split; [reflexivity|]. split; [exact El|].
        assert (Hc : column data 0 = Ok times /\ column data 1 = Ok ratios).
        { unfold load_data, rbind in El.
          destruct (column data 0) as [t|]; [|discriminate].
          destruct (column data 1) as [r0|]; [|discriminate].
          destruct (shape_1 data) as [n|]; [|discriminate].
          destruct (if 2 <? n then column data 2 else Ok (zeros_like r0));
            [|discriminate].
          injection El as <- <- _. now split. }
        destruct Hc as [Hc0 Hc1].
        split; [exact Hc0|]. split; [exact Hc1|].
        split; [reflexivity|]. split; [exact Hstyle|].
        intros g x y Hp. apply in_map_iff in Hp.
        destruct Hp as (ev & Hev & Hp). injection Hev as ->.
        exact (Hrest _ _ _ Hp).
      * apply in_map_iff in Hin. destruct Hin as (ev & Hev & Hin).
        injection Hev as ->. destruct (Hrest _ _ _ Hin).
  - rewrite (main_load_failed curve_fit splitext data _ e' El).
    cbn [snd map]. intro Hin. apply in_app_or in Hin.
    destruct Hin as [Hin|[Hin|[]]];
      [destruct (Hstyle _ Hin) as [s Hs]; discriminate Hs
      | discriminate Hin].
Qed.

Lemma main_cli_solver_called_after_load_witness :
  In (Pipeline (CallCurveFit Calc_iratio times3 ratios3))
     (snd (main_cli (solver_returning popt_1_2 pcov_9_64) (fun p => p)
             (fun _ => true) (fun _ => Ok tt) (fun _ => Ok data_3col)
             {| arg_input := "data.txt"; arg_output := "exsy";
                arg_style := Some "paper.mplstyle"%string |}))
  /\ ((fun _ : string => true) "data.txt"%string = true
      /\ exists data errors pre post,
           (fun _ : string => Ok data_3col) "data.txt"%string = Ok data
           /\ load_data data = Ok (times3, ratios3, errors)
           /\ column data 0 = Ok times3
           /\ column data 1 = Ok ratios3
           /\ snd (main_cli (solver_returning popt_1_2 pcov_9_64)
                     (fun p => p) (fun _ => true) (fun _ => Ok tt)
                     (fun _ => Ok data_3col)
                     {| arg_input := "data.txt"; arg_output := "exsy";
                        arg_style := Some "paper.mplstyle"%string |})
              = pre ++ LoadTxt "data.txt"
                    :: Pipeline (CallCurveFit Calc_iratio times3 ratios3)
                    :: post
           /\ (forall ev, In ev pre -> exists s, ev = UseStyle s)
           /\ (forall g x y, ~ In (Pipeline (CallCurveFit g x y)) post)).
Proof.
  assert (Hin :
    In (Pipeline (CallCurveFit Calc_iratio times3 ratios3))
       (snd (main_cli (solver_returning popt_1_2 pcov_9_64) (fun p => p)
               (fun _ => true) (fun _ => Ok tt) (fun _ => Ok data_3col)
               {| arg_input := "data.txt"; arg_output := "exsy";
                  arg_style := Some "paper.mplstyle"%string |})))
    by (right; right; left; reflexivity).
  split; [exact Hin|].
  exact (main_cli_solver_called_after_load float float_Num
           (solver_returning popt_1_2 pcov_9_64) (fun p => p)
           (fun _ => true) (fun _ => Ok tt) (fun _ => Ok data_3col)
           {| arg_input := "data.txt"; arg_output := "exsy";
              arg_style := Some "paper.mplstyle"%string |}
           Calc_iratio times3 ratios3 Hin).
Defined.
